(** * beam-nuggets: the relational-database connector

    A shallow embedding of [beam_nuggets/io/relational_db/sqlalchemy_db.py]:
    the type inference on sample values, the columns derived from a sample
    record, the choice of the insert-statement builder, and the connection
    manager [SqlAlchemyDB] with its table cache, written as a state and
    exception monad over the manager object and the database it talks to. *)

From Stdlib Require Import ZArith Ascii String List Lia Bool.
From stdpp Require Import base gmap strings.
Import ListNotations.

Local Open Scope string_scope.
Local Open Scope list_scope.

(** ** Python values and exceptions *)

(** The exceptions that the modelled code raises or lets through. *)
Inductive Exn : Type :=
| SqlAlchemyDbException (msg : string)
| KeyError (key : string)
| TypeError
| AttributeError
| ValueError
| ArgumentError
| EngineError (what : string).

Inductive result (A : Type) : Type :=
| Ok (a : A)
| Raise (e : Exn).
Arguments Ok {A} a.
Arguments Raise {A} e.

(** The runtime values a sample record may hold.  [PyObject] stands for an
    instance of any other class, unrelated to [bool] and to the date
    classes, described by what the inference rules observe of it: whether
    [x + 1] evaluates, and whether it has [__len__] (a [Decimal] is
    [PyObject _ true false], a list [PyObject _ false true], a numeric array
    [PyObject _ true true]). *)
Inductive PyVal : Type :=
| PyNone
| PyBool (b : bool)
| PyInt (z : Z)
| PyFloat (mantissa exponent : Z)
| PyStr (s : string)
| PyDatetime (timestamp : Z)
| PyDate (ordinal : Z)
| PyObject (cls : string) (add_ok has_len : bool).

(** [isinstance(x, bool)] *)
Definition isinstance_bool (x : PyVal) : bool :=
  match x with PyBool _ => true | _ => false end.

(** [isinstance(x, datetime.datetime)] *)
Definition isinstance_datetime (x : PyVal) : bool :=
  match x with PyDatetime _ => true | _ => false end.

(** [isinstance(x, datetime.date)]: [datetime.datetime] is a subclass of
    [datetime.date]. *)
Definition isinstance_date (x : PyVal) : bool :=
  match x with PyDatetime _ | PyDate _ => true | _ => false end.

(** [hasattr(x, '__len__')] *)
Definition hasattr_len (x : PyVal) : bool :=
  match x with
  | PyStr _ => true
  | PyObject _ _ has_len => has_len
  | _ => false
  end.

(** The statement [_ = x + 1] of [_is_number]: the sum is evaluated and
    dropped, so only whether it raises is kept.  Booleans are integers and
    add, integers and floats add, an object adds when its class accepts an
    integer operand; everything else raises [TypeError]. *)
Definition py_add_one (x : PyVal) : result unit :=
  match x with
  | PyBool _ | PyInt _ | PyFloat _ _ => Ok tt
  | PyObject _ true _ => Ok tt
  | _ => Raise TypeError
  end.

(** ** Strings *)

(** Python's [needle in hay] on strings: [needle] occurs in [hay]. *)
Fixpoint str_in (needle hay : string) : bool :=
  String.prefix needle hay ||
  match hay with
  | EmptyString => false
  | String _ rest => str_in needle rest
  end.

(** [x in xs] on a list of strings. *)
Definition list_in (x : string) (xs : list string) : bool :=
  existsb (String.eqb x) xs.

(** ** Column types and type inference *)

(** The SQLAlchemy column types the module imports; [String_ None] is the
    bare [String], [String_ (Some n)] is [String(n)]. *)
Inductive DbType : Type :=
| Integer
| String_ (length : option nat)
| Float
| Boolean
| DateTime
| Date.

Definition _is_number (x : PyVal) : bool :=
  match py_add_one x with
  | Raise _ => false
  | Ok _ => negb (hasattr_len x)
  end.

Definition PYTHON_TO_DB_TYPE : list ((PyVal -> bool) * DbType) :=
  [ (isinstance_bool, Boolean);
    (_is_number, Float);
    (isinstance_datetime, DateTime);
    (isinstance_date, Date) ].

Definition _does_support_varchar (drivername : string) : bool :=
  str_in "postgresql" drivername || str_in "sqlite" drivername.

(** The [for] loop of [infer_db_type] over a rule table. *)
Fixpoint first_match (rules : list ((PyVal -> bool) * DbType)) (val : PyVal)
  : option DbType :=
  match rules with
  | [] => None
  | (is_type_f, db_type) :: rest =>
      if is_type_f val then Some db_type else first_match rest val
  end.

Definition infer_db_type (val : PyVal) (drivername : string) : DbType :=
  match first_match PYTHON_TO_DB_TYPE val with
  | Some db_type => db_type
  | None =>
      if _does_support_varchar drivername then String_ None
      else String_ (Some 100%nat)
  end.

(** ** Tables, rows and statements *)

(** [sqlalchemy.Column(name, type, primary_key=...)] *)
Record Column : Type := mkColumn {
  c_name : string;
  c_type : DbType;
  c_primary_key : bool
}.

(** [sqlalchemy.Table(name, metadata, *columns)] *)
Record SaTable : Type := Table {
  t_name : string;
  t_columns : list Column
}.

(** A record is a Python dict from column names to values, kept as its items
    in iteration order. *)
Definition Row : Type := list (string * PyVal).

(** [record.keys()] *)
Definition keys (record : Row) : list string := map fst record.

(** [record[col]] *)
Fixpoint getitem (record : Row) (col : string) : result PyVal :=
  match record with
  | [] => Raise (KeyError col)
  | (k, v) :: rest => if String.eqb k col then Ok v else getitem rest col
  end.

(** [table.primary_key]: the columns flagged as primary key. *)
Definition primary_key (table : SaTable) : list Column :=
  List.filter (fun c => c_primary_key c) (t_columns table).

(** The insert constructs of the three dialect modules. *)
Inductive Stmt : Type :=
| InsertValues (table : SaTable) (values : Row)
| InsertOnConflictDoUpdate
    (table : SaTable) (values : Row) (index_elements : list Column) (set_ : Row)
| InsertOnDuplicateKeyUpdate (table : SaTable) (values : Row) (update : Row).

(** A statement builder, [create_insert_f(table=..., record=...)]; one given
    by the caller may raise. *)
Definition InsertF : Type := SaTable -> Row -> result Stmt.

Definition create_insert : InsertF :=
  fun table record => Ok (InsertValues table record).

(** [on_conflict_do_update] refuses an empty [set_] with [ValueError]. *)
Definition create_upsert_postgres : InsertF :=
  fun table record =>
    match record with
    | [] => Raise ValueError
    | _ :: _ =>
        Ok (InsertOnConflictDoUpdate table record (primary_key table) record)
    end.

(** [on_duplicate_key_update] refuses to be given no value, with
    [ValueError]. *)
Definition create_upsert_mysql : InsertF :=
  fun table record =>
    match record with
    | [] => Raise ValueError
    | _ :: _ => Ok (InsertOnDuplicateKeyUpdate table record record)
    end.

(** ** Columns from a sample record *)

(** The loop [while pri_col_name in record.keys(): pri_col_name += '_'],
    with a bound on the number of tests; one more than the record has keys
    is never reached ([pri_col_name_loop_total]). *)
Fixpoint pri_col_name_loop (fuel : nat) (record : Row) (pri_col_name : string)
  : option string :=
  match fuel with
  | O => None
  | S fuel' =>
      if list_in pri_col_name (keys record)
      then pri_col_name_loop fuel' record (pri_col_name ++ "_")
      else Some pri_col_name
  end.

(** The list comprehension building the primary-key columns: the first
    failing [record[col]] ends it. *)
Fixpoint primary_key_columns_of (record : Row) (names : list string)
  (drivername : string) : result (list Column) :=
  match names with
  | [] => Ok []
  | col :: rest =>
      match getitem record col with
      | Raise e => Raise e
      | Ok value =>
          match primary_key_columns_of record rest drivername with
          | Raise e => Raise e
          | Ok cols =>
              Ok (mkColumn col (infer_db_type value drivername) true :: cols)
          end
      end
  end.

Definition _columns_from_sample_record (record : Row)
  (primary_key_column_names : list string) (drivername : string)
  : result (list Column) :=
  if (0 <? List.length primary_key_column_names)%nat then
    match primary_key_columns_of record primary_key_column_names drivername with
    | Raise e => Raise e
    | Ok primary_key_columns =>
        let other_columns :=
          map (fun '(col, value) =>
                 mkColumn col (infer_db_type value drivername) false)
              (List.filter (fun '(col, _) =>
                         negb (list_in col primary_key_column_names))
                      record) in
        Ok (primary_key_columns ++ other_columns)
    end
  else
    match pri_col_name_loop (S (List.length record)) record "id" with
    | None => Raise (EngineError "pri_col_name: bound exhausted")
    | Some pri_col_name =>
        let primary_key_columns := [mkColumn pri_col_name Integer true] in
        let other_columns :=
          map (fun '(col, value) =>
                 mkColumn col (infer_db_type value drivername) false)
              record in
        Ok (primary_key_columns ++ other_columns)
    end.

(** ** Configuration objects *)

(** [sqlalchemy.engine.url.URL] *)
Record URL : Type := mkURL {
  drivername : string;
  username : option string;
  password : option string;
  host : option string;
  port : option Z;
  database : option string
}.

Module SourceConfiguration.
Record t : Type := make {
  url : URL;
  create_if_missing : bool
}.

(** [SourceConfiguration.__init__] *)
Definition __init__ (drivername : string) (host : option string)
  (port : option Z) (database username password : option string)
  (create_if_missing : bool) : t :=
  make (mkURL drivername username password host port database)
       create_if_missing.
End SourceConfiguration.

(** [sqlalchemy.MetaData]: the tables registered on it, in order. *)
Definition MetaData : Type := list SaTable.

(** A table definition, [define_table_f(metadata)]: it returns a table and
    registers on the metadata whatever tables it builds. *)
Definition DefineTableF : Type := MetaData -> result (SaTable * MetaData).

Module TableConfiguration.
Record t : Type := make {
  name : string;
  define_table_f : option DefineTableF;
  create_table_if_missing : bool;
  primary_key_column_names : list string;
  create_insert_f : option InsertF
}.

(** [TableConfiguration.__init__]: [primary_key_columns or []] turns a
    missing list into the empty one. *)
Definition __init__ (name : string) (define_table_f : option DefineTableF)
  (create_if_missing : bool) (primary_key_columns : option (list string))
  (create_insert_f : option InsertF) : t :=
  make name define_table_f create_if_missing
       (default [] primary_key_columns) create_insert_f.
End TableConfiguration.

(** ** The objects of the connection manager *)

(** The class made by [create_table_class]: a declarative class around a
    table. *)
Record TableClass : Type := mkTableClass {
  __table__ : SaTable
}.

(** [create_table_class]: the declarative class is mapped when it is
    defined, and the mapper raises [ArgumentError] for a table that has no
    primary-key column. *)
Definition create_table_class (sqlalchemy_table : SaTable)
  : result TableClass :=
  match primary_key sqlalchemy_table with
  | [] => Raise ArgumentError
  | _ :: _ => Ok (mkTableClass sqlalchemy_table)
  end.
Arguments create_table_class : simpl never.

Definition get_column_names_from_table (table_class : TableClass)
  : list string :=
  map c_name (t_columns (__table__ table_class)).

Module _Table.
Record t : Type := make {
  _Class : TableClass;
  _sqlalchemy_table : SaTable;
  name : string;
  _column_names : list string
}.

(** [_Table.__init__] *)
Definition __init__ (table_class : TableClass) (name : string) : t :=
  make table_class (__table__ table_class) name
       (get_column_names_from_table table_class).
End _Table.

(** The stored rows of every table. *)
Definition Rows : Type := gmap string (list Row).

(** A [sqlalchemy.orm.Session]: the rows as its open transaction sees them
    ([None] when no transaction is in flight), and whether [close()] was
    called on it. *)
Record Session : Type := mkSession {
  pending : option Rows;
  closed : bool
}.

(** The [SqlAlchemyDB] object. *)
Record SqlAlchemyDB : Type := mkSqlAlchemyDB {
  _source : SourceConfiguration.t;
  _session : option Session;
  _name_to_table : gmap string _Table.t
}.

(** The database behind the URL: whether it exists, the columns of each of
    its tables, and the committed rows. *)
Record Database : Type := mkDatabase {
  db_exists : bool;
  catalog : gmap string (list Column);
  committed : Rows
}.

(** The calls made on the client library, in order. *)
Inductive Event : Type :=
| EvDatabaseExists
| EvCreateDatabase
| EvHasTable (name : string)
| EvAutoload (name : string)
| EvCreateTable (table : SaTable)
| EvQuery (name : string)
| EvExecute (stmt : Stmt)
| EvCommit
| EvRollback
| EvClose.

Record State : Type := mkState {
  self : SqlAlchemyDB;
  db : Database;
  trace : list Event
}.

(** What the model leaves to the database engine: the outcome of running
    an insert statement on the rows, whether a commit goes through, whether
    a [CREATE TABLE] is accepted, and whether asking if the database exists
    and creating it go through. *)
Class Engine : Type := mkEngine {
  run_stmt : Stmt -> Rows -> result Rows;
  commit_ok : Rows -> bool;
  ddl_ok : SaTable -> bool;
  database_exists_ok : URL -> bool;
  create_database_ok : URL -> bool
}.

(** ** State and exceptions *)

Definition M (A : Type) : Type := State -> State * result A.

Definition ret {A} (a : A) : M A := fun st => (st, Ok a).

Definition raise {A} (e : Exn) : M A := fun st => (st, Raise e).

Definition bind {A B} (m : M A) (k : A -> M B) : M B :=
  fun st =>
    match m st with
    | (st', Ok a) => k a st'
    | (st', Raise e) => (st', Raise e)
    end.

(** [try: body except: handler; raise]: the handler runs on the state the
    body left, then the exception is raised again, unless the handler
    raises one of its own. *)
Definition try_except_reraise {A} (body : M A) (handler : M unit) : M A :=
  fun st =>
    match body st with
    | (st', Ok a) => (st', Ok a)
    | (st', Raise e) =>
        match handler st' with
        | (st'', Ok _) => (st'', Raise e)
        | (st'', Raise e') => (st'', Raise e')
        end
    end.

Notation "'do' x <- m ; k" := (bind m (fun x => k))
  (at level 10, x name, m at level 100, k at level 200).
Notation "'do_' m ; k" := (bind m (fun _ => k))
  (at level 10, m at level 100, k at level 200).

Definition get_state : M State := fun st => (st, Ok st).

Definition lift {A} (r : result A) : M A := fun st => (st, r).

Definition log (ev : Event) : M unit :=
  fun st => (mkState (self st) (db st) (trace st ++ [ev]), Ok tt).

Definition set_self (s : SqlAlchemyDB) : M unit :=
  fun st => (mkState s (db st) (trace st), Ok tt).

Definition set_db (d : Database) : M unit :=
  fun st => (mkState (self st) d (trace st), Ok tt).

(** Reading [self._session] to call a method on it: on [None] the attribute
    access raises. *)
Definition the_session : M Session :=
  fun st =>
    match _session (self st) with
    | Some s => (st, Ok s)
    | None => (st, Raise AttributeError)
    end.

(** The session is one object, reached through [self._session]; a method
    that changes it changes it there. *)
Definition set_session (s : Session) : M unit :=
  do st <- get_state;
  set_self (mkSqlAlchemyDB (_source (self st)) (Some s)
                           (_name_to_table (self st))).

(** ** The session and the engine, as the module uses them *)

(** The client library is outside the module.  Of a session the model keeps
    its transaction; of the engine, the tables it has.  What a statement
    does to the rows, and whether a commit, a table creation, the probe for
    the database and its creation are accepted, is left to the [Engine].
    Looking a table up, rolling back and closing always go through. *)

(** The rows a session works on: those of its transaction when one is in
    flight, the committed ones otherwise. *)
Definition view (s : Session) (d : Database) : Rows :=
  match pending s with
  | Some rows => rows
  | None => committed d
  end.

(** [session.execute(insert_stmt)] *)
Definition session_execute `{Engine} (stmt : Stmt) : M unit :=
  do s <- the_session;
  do_ log (EvExecute stmt);
  do st <- get_state;
  match run_stmt stmt (view s (db st)) with
  | Raise e => raise e
  | Ok rows => set_session (mkSession (Some rows) (closed s))
  end.

(** [session.commit()] *)
Definition session_commit `{Engine} : M unit :=
  do s <- the_session;
  do_ log EvCommit;
  do st <- get_state;
  if commit_ok (view s (db st)) then
    do_ set_db (mkDatabase (db_exists (db st)) (catalog (db st))
                           (view s (db st)));
    set_session (mkSession None (closed s))
  else raise (EngineError "commit").

(** [session.rollback()] *)
Definition session_rollback : M unit :=
  do s <- the_session;
  do_ log EvRollback;
  set_session (mkSession None (closed s)).

(** [session.close()]: the transaction is dropped.  The object stays where
    it is, and the later calls made on it are not refused. *)
Definition session_close : M unit :=
  do s <- the_session;
  do_ log EvClose;
  set_session (mkSession None true).

(** [session.query(cls)], run to its end: the session begins a transaction
    when it has none, which nothing here ends, and gives the rows of the
    table of [cls], which the database must have. *)
Definition session_query (cls : TableClass) : M (list Row) :=
  do s <- the_session;
  do_ log (EvQuery (t_name (__table__ cls)));
  do st <- get_state;
  do_ set_session (mkSession (Some (view s (db st))) (closed s));
  match catalog (db st) !! t_name (__table__ cls) with
  | Some _ => ret (default [] (view s (db st) !! t_name (__table__ cls)))
  | None => raise (EngineError "no such table")
  end.

(** [metadata.create_all()], first part: every registered table is looked
    up, and those the database lacks are kept. *)
Fixpoint tables_to_create (metadata : MetaData) : M (list SaTable) :=
  match metadata with
  | [] => ret []
  | table :: rest =>
      do_ log (EvHasTable (t_name table));
      do st <- get_state;
      do collection <- tables_to_create rest;
      ret (match catalog (db st) !! t_name table with
           | Some _ => collection
           | None => table :: collection
           end)
  end.

(** Second part: the tables kept are created, in their order; the engine
    refuses a table whose name is taken by then. *)
Fixpoint create_tables `{Engine} (collection : list SaTable) : M unit :=
  match collection with
  | [] => ret tt
  | table :: rest =>
      do_ log (EvCreateTable table);
      do st <- get_state;
      do_ match catalog (db st) !! t_name table with
          | Some _ => raise (EngineError "table already exists")
          | None =>
              if ddl_ok table then
                set_db
                  (mkDatabase (db_exists (db st))
                     (<[t_name table := t_columns table]> (catalog (db st)))
                     (committed (db st)))
              else raise (EngineError "create table")
          end;
      create_tables rest
  end.

Definition create_all `{Engine} (metadata : MetaData) : M unit :=
  do collection <- tables_to_create metadata;
  create_tables collection.

(** ** Loading and creating tables *)

Definition load_table (name : string) : M (option TableClass) :=
  do _s <- the_session;
  do_ log (EvHasTable name);
  do st <- get_state;
  match catalog (db st) !! name with
  | Some columns =>
      do_ log (EvAutoload name);
      do table_class <- lift (create_table_class (Table name columns));
      ret (Some table_class)
  | None => ret None
  end.

Definition _get_default_define_f (record : Row) (name : string)
  (primary_key_column_names : list string) (drivername : string)
  : DefineTableF :=
  fun metadata =>
    match _columns_from_sample_record
            record primary_key_column_names drivername with
    | Raise e => Raise e
    | Ok columns => Ok (Table name columns, metadata ++ [Table name columns])
    end.

Definition create_table `{Engine} (name : string)
  (table_config : TableConfiguration.t) (record : Row)
  : M (option TableClass) :=
  do table_class <- load_table name;
  match table_class with
  | Some cls => ret (Some cls)
  | None =>
      if TableConfiguration.create_table_if_missing table_config then
        do st <- get_state;
        let define_table_f :=
          match TableConfiguration.define_table_f table_config with
          | Some f => f
          | None =>
              _get_default_define_f record name
                (TableConfiguration.primary_key_column_names table_config)
                (drivername (SourceConfiguration.url (_source (self st))))
          end in
        do defined <- lift (define_table_f []);
        do_ create_all (snd defined);
        do created_class <- lift (create_table_class (fst defined));
        ret (Some created_class)
      else ret None
  end.

(** ** The table handle *)

(** [getattr(db_record, col)] *)
Fixpoint getattr (db_record : Row) (col : string) : result PyVal :=
  match db_record with
  | [] => Raise AttributeError
  | (k, v) :: rest => if String.eqb k col then Ok v else getattr rest col
  end.

Fixpoint _from_db_record_cols (column_names : list string) (db_record : Row)
  : result Row :=
  match column_names with
  | [] => Ok []
  | col :: rest =>
      match getattr db_record col with
      | Raise e => Raise e
      | Ok v =>
          match _from_db_record_cols rest db_record with
          | Raise e => Raise e
          | Ok r => Ok ((col, v) :: r)
          end
      end
  end.

Definition _from_db_record (table : _Table.t) (db_record : Row) : result Row :=
  _from_db_record_cols (_Table._column_names table) db_record.

Fixpoint map_result {A B} (f : A -> result B) (l : list A) : result (list B) :=
  match l with
  | [] => Ok []
  | x :: rest =>
      match f x with
      | Raise e => Raise e
      | Ok y =>
          match map_result f rest with
          | Raise e => Raise e
          | Ok ys => Ok (y :: ys)
          end
      end
  end.

(** [_Table.records], run to its end. *)
Definition _Table_records (table : _Table.t) : M (list Row) :=
  do db_records <- session_query (_Table._Class table);
  lift (map_result (_from_db_record table) db_records).

(** [_Table.write_record] *)
Definition _Table_write_record `{Engine} (table : _Table.t)
  (create_insert_f : InsertF) (record_dict : Row) : M unit :=
  try_except_reraise
    (do insert_stmt <-
       lift (create_insert_f (_Table._sqlalchemy_table table) record_dict);
     do_ session_execute insert_stmt;
     session_commit)
    (do_ session_rollback;
     session_close).

(** ** The connection manager *)

(** [SqlAlchemyDB.__init__] *)
Definition __init__ (source_config : SourceConfiguration.t) : SqlAlchemyDB :=
  mkSqlAlchemyDB source_config None ∅.

Definition start_session `{Engine} : M unit :=
  do st <- get_state;
  do_ (if SourceConfiguration.create_if_missing (_source (self st)) then
         do_ log EvDatabaseExists;
         if database_exists_ok (SourceConfiguration.url (_source (self st)))
         then
           if negb (db_exists (db st)) then
             do_ log EvCreateDatabase;
             if create_database_ok
                  (SourceConfiguration.url (_source (self st)))
             then
               set_db (mkDatabase true (catalog (db st)) (committed (db st)))
             else raise (EngineError "create database")
           else ret tt
         else raise (EngineError "database exists")
       else ret tt);
  set_self (mkSqlAlchemyDB (_source (self st))
                           (Some (mkSession None false))
                           (_name_to_table (self st))).

Definition close_session : M unit :=
  do_ session_close;
  do st <- get_state;
  set_self (mkSqlAlchemyDB (_source (self st)) None
                           (_name_to_table (self st))).

Definition _get_create_insert_f (source : SourceConfiguration.t)
  (table_config : TableConfiguration.t) : InsertF :=
  match TableConfiguration.create_insert_f table_config with
  | Some create_insert_f => create_insert_f
  | None =>
      if str_in "postgresql" (drivername (SourceConfiguration.url source))
      then create_upsert_postgres
      else if str_in "mysql" (drivername (SourceConfiguration.url source))
      then create_upsert_mysql
      else create_insert
  end.

Definition _get_table (name : string) (get_table_f : M (option TableClass))
  : M _Table.t :=
  do table_class <- get_table_f;
  match table_class with
  | Some cls => ret (_Table.__init__ cls name)
  | None => raise (SqlAlchemyDbException ("Failed to get table " ++ name))
  end.

Definition _open_table (name : string) (get_table_f : M (option TableClass))
  : M _Table.t :=
  do st <- get_state;
  match _name_to_table (self st) !! name with
  | Some table => ret table
  | None =>
      do table <- _get_table name get_table_f;
      do st' <- get_state;
      do_ set_self (mkSqlAlchemyDB (_source (self st')) (_session (self st'))
                      (<[name := table]> (_name_to_table (self st'))));
      ret table
  end.

Definition _open_table_for_read (name : string) : M _Table.t :=
  _open_table name (load_table name).

Definition _open_table_for_write `{Engine}
  (table_config : TableConfiguration.t) (record : Row) : M _Table.t :=
  _open_table (TableConfiguration.name table_config)
    (create_table (TableConfiguration.name table_config) table_config record).

(** [SqlAlchemyDB.read], with the generator run to its end. *)
Definition read (table_name : string) : M (list Row) :=
  do table <- _open_table_for_read table_name;
  _Table_records table.

Definition write_record `{Engine} (table_config : TableConfiguration.t)
  (record_dict : Row) : M unit :=
  do table <- _open_table_for_write table_config record_dict;
  do st <- get_state;
  _Table_write_record table
    (_get_create_insert_f (_source (self st)) table_config) record_dict.

(** ** Sequences of calls *)

Inductive Call : Type :=
| CallStart
| CallClose
| CallRead (table_name : string)
| CallWrite (table_config : TableConfiguration.t) (record_dict : Row).

(** One call by a caller that catches whatever it raises. *)
Definition call `{Engine} (c : Call) (st : State) : State :=
  match c with
  | CallStart => fst (start_session st)
  | CallClose => fst (close_session st)
  | CallRead table_name => fst (read table_name st)
  | CallWrite table_config record_dict =>
      fst (write_record table_config record_dict st)
  end.

Definition calls `{Engine} (cs : list Call) (st : State) : State :=
  fold_left (fun st c => call c st) cs st.

(** The events that change the database or the session's transaction. *)
Definition is_write_event (ev : Event) : bool :=
  match ev with
  | EvCreateDatabase | EvCreateTable _ | EvExecute _ | EvCommit
  | EvRollback | EvClose => true
  | _ => false
  end.

Definition is_create_table_event (ev : Event) : bool :=
  match ev with EvCreateTable _ => true | _ => false end.

Definition is_rollback_or_close (ev : Event) : bool :=
  match ev with EvRollback | EvClose => true | _ => false end.

(** ** Sample data *)

Definition sqlite_source : SourceConfiguration.t :=
  SourceConfiguration.make
    (mkURL "sqlite" None None None None (Some "/tmp/test.db")) false.

Definition postgres_source : SourceConfiguration.t :=
  SourceConfiguration.make
    (mkURL "postgresql+psycopg2" (Some "beam") None (Some "localhost")
           (Some 5432%Z) (Some "school")) false.

Definition mysql_source : SourceConfiguration.t :=
  SourceConfiguration.make
    (mkURL "mysql+pymysql" (Some "beam") None (Some "localhost")
           (Some 3306%Z) (Some "school")) false.

(** A descriptor that brings its own builder. *)
Definition plain_insert_config : TableConfiguration.t :=
  TableConfiguration.make "students" None true ["id"] (Some create_insert).

Definition students_config (create_if_missing : bool)
  : TableConfiguration.t :=
  TableConfiguration.make "students" None create_if_missing ["id"] None.

Definition jack3 : Row :=
  [("id", PyInt 3); ("name", PyStr "Jack3"); ("age", PyInt 23)].

(** An engine that accepts every statement and stores the inserted row. *)
Definition accepting_engine : Engine :=
  mkEngine
    (fun stmt rows =>
       match stmt with
       | InsertValues table values
       | InsertOnConflictDoUpdate table values _ _
       | InsertOnDuplicateKeyUpdate table values _ =>
           Ok (<[t_name table :=
                   default [] (rows !! t_name table) ++ [values]]> rows)
       end)
    (fun _ => true)
    (fun _ => true)
    (fun _ => true)
    (fun _ => true).

(** An engine that rejects every insert statement. *)
Definition rejecting_engine : Engine :=
  mkEngine
    (fun _ _ => Raise (EngineError "integrity"))
    (fun _ => true)
    (fun _ => true)
    (fun _ => true)
    (fun _ => true).

Definition empty_database : Database := mkDatabase true ∅ ∅.

(** A fresh manager on an existing, empty database. *)
Definition initial_state : State :=
  mkState (__init__ sqlite_source) empty_database [].

(** The same, with a session started. *)
Definition started_state : State :=
  fst (@start_session accepting_engine initial_state).

(** The state after the sample row was written to a table made for it. *)
Definition written_state : State :=
  fst (@write_record accepting_engine (students_config true) jack3
         started_state).

(** A new manager, with a session started, on the database that write
    left. *)
Definition second_manager_state : State :=
  fst (@start_session accepting_engine
         (mkState (__init__ sqlite_source) (db written_state)
                  (trace written_state))).

(** The table handle that write leaves in the cache. *)
Definition students_table : _Table.t :=
  _Table.__init__
    (mkTableClass
       (Table "students"
          [mkColumn "id" Float true; mkColumn "name" (String_ None) false;
           mkColumn "age" Float false]))
    "students".

(** ** Notions used by the statements *)

(** [n] underscores. *)
Fixpoint underscores (n : nat) : string :=
  match n with
  | O => ""
  | S k => String "_"%char (underscores k)
  end.

(** The ordinary column inferred from one item of the sample. *)
Definition ordinary_column (drivername : string) (item : string * PyVal)
  : Column :=
  mkColumn (fst item) (infer_db_type (snd item) drivername) false.

(** Type inference as the specification words it: the rules in their
    order, then the text fallback. *)
Definition infer_db_type_spec (val : PyVal) (drivername : string) : DbType :=
  if isinstance_bool val then Boolean
  else if match py_add_one val with Ok _ => true | Raise _ => false end
          && negb (hasattr_len val) then Float
  else if isinstance_datetime val then DateTime
  else if isinstance_date val then Date
  else if str_in "postgresql" drivername || str_in "sqlite" drivername
       then String_ None
  else String_ (Some 100%nat).

(** A computation keeps a relation between the state it starts from and the
    state it leaves, whether it returns or raises. *)
Definition keeps {A} (R : State -> State -> Prop) (m : M A) : Prop :=
  forall st, R st (fst (m st)).

Definition same_self (st st' : State) : Prop := self st' = self st.

(** Every table cached in [st] is still cached, unchanged, in [st']. *)
Definition cache_grows (st st' : State) : Prop :=
  forall name table,
    _name_to_table (self st) !! name = Some table ->
    _name_to_table (self st') !! name = Some table.

Definition same_cache (st st' : State) : Prop :=
  _name_to_table (self st') = _name_to_table (self st) /\
  _source (self st') = _source (self st).

Definition same_session (st st' : State) : Prop :=
  _session (self st') = _session (self st).

Definition same_db (st st' : State) : Prop := db st' = db st.

(** The manager has the same session or none as before, seeing the same
    rows: at most a transaction has begun on it. *)
Definition same_view (st st' : State) : Prop :=
  match _session (self st), _session (self st') with
  | None, None => True
  | Some s, Some s' =>
      view s' (db st') = view s (db st) /\ closed s' = closed s
  | _, _ => False
  end.

(** The trace grew, by events that all satisfy [p]. *)
Definition adds_events (p : Event -> bool) (st st' : State) : Prop :=
  exists evs, trace st' = trace st ++ evs /\ forallb p evs = true.

(** Every table that [st] has in its database is still there in [st']. *)
Definition catalog_keeps (st st' : State) : Prop :=
  forall name,
    is_Some (catalog (db st) !! name) -> is_Some (catalog (db st') !! name).

(** Every cached name is the name of a table of the database. *)
Definition cache_in_catalog (st : State) : Prop :=
  forall name,
    is_Some (_name_to_table (self st) !! name) ->
    is_Some (catalog (db st) !! name).

(** The calls whose tables, when created, are defined from the sample. *)
Definition defines_from_sample (c : Call) : Prop :=
  match c with
  | CallWrite table_config _ =>
      TableConfiguration.define_table_f table_config = None
  | _ => True
  end.

Definition not_write_event (ev : Event) : bool := negb (is_write_event ev).

Definition not_rollback_or_close (ev : Event) : bool :=
  negb (is_rollback_or_close ev).

(** Since [st], the session was rolled back and then closed, these being the
    last two calls made; it holds no transaction and is closed. *)
Definition rolled_back_then_closed (st st' : State) : Prop :=
  (exists evs, trace st' = trace st ++ evs ++ [EvRollback; EvClose]) /\
  _session (self st') = Some (mkSession None true).

(** The database lacks the table. *)
Definition is_missing (d : Database) (table : SaTable) : bool :=
  match catalog d !! t_name table with
  | Some _ => false
  | None => true
  end.

(** The state with more events on its trace. *)
Definition logged (st : State) (evs : list Event) : State :=
  mkState (self st) (db st) (trace st ++ evs).

(** The manager with one more cached table. *)
Definition cached (st : State) (name : string) (table : _Table.t) : State :=
  mkState (mkSqlAlchemyDB (_source (self st)) (_session (self st))
             (<[name := table]> (_name_to_table (self st))))
          (db st) (trace st).

(** The state after [create_all] made the one table [table]. *)
Definition created (st : State) (table : SaTable) : State :=
  mkState (self st)
    (mkDatabase (db_exists (db st))
       (<[t_name table := t_columns table]> (catalog (db st)))
       (committed (db st)))
    (trace st ++ [EvHasTable (t_name table); EvHasTable (t_name table);
                  EvCreateTable table]).

(** ** Further notions and samples *)

(** The committed rows are the same. *)
Definition same_rows (st st' : State) : Prop :=
  committed (db st') = committed (db st).

(** The calls [start_session] makes on the client library. *)
Definition start_session_events (st : State) : list Event :=
  if SourceConfiguration.create_if_missing (_source (self st)) then
    EvDatabaseExists :: (if db_exists (db st) then [] else [EvCreateDatabase])
  else [].

(** A table defined by the caller, under another name than the
    descriptor's. *)
Definition pupils_table : SaTable :=
  Table "pupils"
    [mkColumn "id" Integer true; mkColumn "name" (String_ None) false].

Definition pupils_config : TableConfiguration.t :=
  TableConfiguration.make "students"
    (Some (fun metadata => Ok (pupils_table, metadata ++ [pupils_table])))
    true [] None.

(** An engine that refuses every table creation. *)
Definition refusing_engine : Engine :=
  mkEngine (fun _ rows => Ok rows) (fun _ => true) (fun _ => false)
    (fun _ => true) (fun _ => true).

(** A source whose database is created when missing, and a new manager on
    it, the database not being there yet. *)
Definition creating_source : SourceConfiguration.t :=
  SourceConfiguration.make
    (mkURL "sqlite" None None None None (Some "/tmp/new.db")) true.

Definition missing_database_state : State :=
  mkState (__init__ creating_source) (mkDatabase false ∅ ∅) [].



(** An engine whose probe for the database fails, and one that cannot
    create a database. *)
Definition unreachable_engine : Engine :=
  mkEngine (fun _ rows => Ok rows) (fun _ => true) (fun _ => true)
    (fun _ => false) (fun _ => true).

Definition read_only_engine : Engine :=
  mkEngine (fun _ rows => Ok rows) (fun _ => true) (fun _ => true)
    (fun _ => true) (fun _ => false).

(** The state after a write whose descriptor, named [students], defined the
    table [pupils]. *)
Definition pupils_state : State :=
  fst (@write_record accepting_engine pupils_config jack3 started_state).

(** The manager of [pupils_state], after another client has created the
    table students in its database. *)
Definition shadowed_state : State :=
  mkState (self pupils_state)
    (mkDatabase true
       (<["students" := t_columns (_Table._sqlalchemy_table students_table)]>
          (catalog (db pupils_state)))
       (committed (db pupils_state)))
    [].

(** A started manager on a database whose one table has no primary key. *)
Definition keyless_columns : list Column :=
  [mkColumn "line" (String_ None) false].

Definition keyless_state : State :=
  mkState (self started_state)
    (mkDatabase true (<["log" := keyless_columns]> ∅) ∅) [].

(** A table without primary key, defined by the caller. *)
Definition keyless_config : TableConfiguration.t :=
  TableConfiguration.make "log"
    (Some (fun metadata =>
             Ok (Table "log" keyless_columns,
                 metadata ++ [Table "log" keyless_columns])))
    true [] None.

(** The same table, defined under another name than the descriptor's. *)
Definition journal_config : TableConfiguration.t :=
  TableConfiguration.make "journal"
    (Some (fun metadata =>
             Ok (Table "log" keyless_columns,
                 metadata ++ [Table "log" keyless_columns])))
    true [] None.

(** Every table of the database of [st] is in that of [st'] with the same
    columns. *)
Definition catalog_grows (st st' : State) : Prop :=
  forall name columns,
    catalog (db st) !! name = Some columns ->
    catalog (db st') !! name = Some columns.

(** * Properties *)

(** ** Strings *)

Lemma prefix_app (p s : string) :
  String.prefix p s = true <-> exists post, s = (p ++ post)%string.
Proof.
  revert s. induction p as [|a p IH]; intros s.
  - split; [intros _; exists s; reflexivity | destruct s; reflexivity].
  - destruct s as [|b s]; simpl.
    + split; [discriminate | intros [post Hpost]; discriminate].
    + destruct (Ascii.ascii_dec a b) as [->|Hne].
      * rewrite IH. split; intros [post Hpost]; exists post.
        -- now rewrite Hpost.
        -- now injection Hpost.
      * split; [discriminate|]. intros [post Hpost].
        injection Hpost as Hab _. congruence.
Qed.

(** [str_in] is the substring test. *)
Lemma str_in_substring (needle hay : string) :
  str_in needle hay = true <->
  exists pre post, hay = (pre ++ needle ++ post)%string.
Proof.
  induction hay as [|c hay IH]; cbn [str_in].
  - rewrite orb_false_r, prefix_app. split.
    + intros [post Hpost]. exists "", post. exact Hpost.
    + intros [[|? ?] [post Hpost]]; [exists post; exact Hpost | discriminate].
  - rewrite orb_true_iff, IH, prefix_app. split.
    + intros [[post Hpost] | (pre & post & ->)].
      * exists "", post. exact Hpost.
      * exists (String c pre), post. reflexivity.
    + intros ([|c' pre] & post & Hpost).
      * left. exists post. exact Hpost.
      * right. injection Hpost as _ ->. exists pre, post. reflexivity.
Qed.

Lemma list_in_In (x : string) (xs : list string) :
  list_in x xs = true <-> In x xs.
Proof.
  unfold list_in. rewrite existsb_exists. split.
  - intros (y & Hy & Heq). apply String.eqb_eq in Heq. congruence.
  - intros Hin. exists x. split; [exact Hin | apply String.eqb_refl].
Qed.

Lemma append_cons (c : ascii) (s t : string) :
  (String c s ++ t)%string = String c (s ++ t)%string.
Proof. reflexivity. Qed.

Lemma append_underscore (name : string) (k : nat) :
  ((name ++ "_") ++ underscores k = name ++ underscores (S k))%string.
Proof.
  induction name as [|c name IH]; [reflexivity|].
  rewrite !append_cons. f_equal. exact IH.
Qed.

Lemma append_empty (name : string) : (name ++ "")%string = name.
Proof.
  induction name as [|c name IH]; [reflexivity|].
  rewrite append_cons. f_equal. exact IH.
Qed.

Lemma length_append_underscores (name : string) (k : nat) :
  String.length (name ++ underscores k)%string = (String.length name + k)%nat.
Proof.
  induction name as [|c name IH].
  - change (String.length (underscores k) = k).
    induction k as [|k IHk]; simpl; [reflexivity | now rewrite IHk].
  - rewrite append_cons. simpl. now rewrite IH.
Qed.

(** ** Type inference *)

Lemma first_match_rules (val : PyVal) :
  first_match PYTHON_TO_DB_TYPE val =
    if isinstance_bool val then Some Boolean
    else if _is_number val then Some Float
    else if isinstance_datetime val then Some DateTime
    else if isinstance_date val then Some Date
    else None.
Proof. reflexivity. Qed.

Lemma infer_db_type_not_Integer (val : PyVal) (drivername : string) :
  infer_db_type val drivername <> Integer.
Proof.
  unfold infer_db_type. rewrite first_match_rules.
  repeat match goal with
         | |- context [if ?b then _ else _] => destruct b
         end; discriminate.
Qed.

(** ** The name of the synthetic primary key *)

Section PriColName.
Variable record : Row.

Lemma pri_col_name_loop_Some (fuel : nat) :
  forall name r,
    pri_col_name_loop fuel record name = Some r ->
    exists k,
      r = (name ++ underscores k)%string /\
      list_in r (keys record) = false /\
      forall m, (m < k)%nat ->
        list_in (name ++ underscores m)%string (keys record) = true.
Proof.
  induction fuel as [|fuel IH]; intros name r; simpl; [discriminate|].
  destruct (list_in name (keys record)) eqn:Hin.
  - intros Hloop. destruct (IH _ _ Hloop) as (k & -> & Hfree & Hbusy).
    exists (S k). rewrite <- append_underscore. repeat split; [exact Hfree|].
    intros [|m] Hm.
    + now rewrite append_empty.
    + rewrite <- append_underscore. apply Hbusy. lia.
  - intros [= <-]. exists 0%nat. rewrite append_empty.
    repeat split; [exact Hin | intros m Hm; lia].
Qed.

Lemma pri_col_name_loop_None (fuel : nat) :
  forall name,
    pri_col_name_loop fuel record name = None ->
    forall m, (m < fuel)%nat ->
      list_in (name ++ underscores m)%string (keys record) = true.
Proof.
  induction fuel as [|fuel IH]; intros name; simpl; [intros _ m Hm; lia|].
  destruct (list_in name (keys record)) eqn:Hin; [|discriminate].
  intros Hloop [|m] Hm.
  - now rewrite append_empty.
  - rewrite <- append_underscore. apply IH; [exact Hloop | lia].
Qed.

(** The candidate names are pairwise distinct, so more of them than the
    record has keys cannot all be keys: the loop ends within the bound. *)
Lemma pri_col_name_loop_total (name : string) :
  exists r, pri_col_name_loop (S (List.length record)) record name = Some r.
Proof.
  destruct (pri_col_name_loop (S (List.length record)) record name)
    as [r|] eqn:Hloop; [exists r; reflexivity | exfalso].
  pose proof (pri_col_name_loop_None _ _ Hloop) as Hbusy.
  set (candidates :=
         map (fun m => (name ++ underscores m)%string)
             (seq 0 (S (List.length record)))).
  assert (Hnodup : List.NoDup candidates).
  { apply List.NoDup_map_inv with (f := String.length).
    unfold candidates. rewrite map_map.
    erewrite map_ext; [|intros m; apply length_append_underscores].
    rewrite <- (map_map (fun m => m) (fun m => (String.length name + m)%nat)).
    rewrite map_id.
    apply List.NoDup_map_inv
      with (f := fun n => (n - String.length name)%nat).
    rewrite map_map. erewrite map_ext; [rewrite map_id; apply List.seq_NoDup|].
    intros m. simpl. lia. }
  assert (Hincl : incl candidates (keys record)).
  { intros c Hc. apply in_map_iff in Hc as (m & <- & Hm).
    apply in_seq in Hm. apply list_in_In, Hbusy. lia. }
  pose proof (List.NoDup_incl_length Hnodup Hincl) as Hlen.
  unfold candidates, keys in Hlen.
  rewrite !List.length_map, List.length_seq in Hlen. lia.
Qed.
End PriColName.

(** ** The columns of a sample record *)

Lemma getitem_total (record : Row) (col : string) :
  In col (keys record) -> exists v, getitem record col = Ok v.
Proof.
  induction record as [|[k v] record IH]; simpl; [intros []|].
  destruct (String.eqb k col) eqn:Heq; [intros _; exists v; reflexivity|].
  intros [Hk | Hin]; [|exact (IH Hin)].
  subst k. now rewrite String.eqb_refl in Heq.
Qed.

Lemma getitem_In (record : Row) (col : string) (v : PyVal) :
  getitem record col = Ok v -> In (col, v) record.
Proof.
  induction record as [|[k w] record IH]; simpl; [discriminate|].
  destruct (String.eqb k col) eqn:Heq; [|intros H; right; exact (IH H)].
  apply String.eqb_eq in Heq. intros [= ->]. left. now subst.
Qed.

Lemma primary_key_columns_of_Ok (record : Row) (drivername : string) :
  forall names cols,
    primary_key_columns_of record names drivername = Ok cols ->
    Forall2 (fun col c =>
               exists v, getitem record col = Ok v /\
                         c = mkColumn col (infer_db_type v drivername) true)
            names cols.
Proof.
  induction names as [|col names IH]; simpl; intros cols.
  - intros [= <-]. constructor.
  - destruct (getitem record col) as [v|e] eqn:Hget; [|discriminate].
    destruct (primary_key_columns_of record names drivername) as [cs|e];
      [|discriminate].
    intros [= <-]. constructor; [exists v; split; [exact Hget|reflexivity]|].
    apply IH. reflexivity.
Qed.

Lemma primary_key_columns_of_total (record : Row) (drivername : string) :
  forall names,
    (forall col, In col names -> In col (keys record)) ->
    exists cols, primary_key_columns_of record names drivername = Ok cols.
Proof.
  induction names as [|col names IH]; simpl; intros Hin;
    [eexists; reflexivity|].
  destruct (getitem_total record col) as [v ->]; [apply Hin; now left|].
  destruct IH as [cols ->]; [intros c Hc; apply Hin; now right|].
  eexists; reflexivity.
Qed.

Lemma primary_key_columns_of_KeyError (record : Row) (drivername : string) :
  forall names col,
    In col names -> ~ In col (keys record) ->
    exists missing,
      primary_key_columns_of record names drivername = Raise (KeyError missing).
Proof.
  assert (Hget : forall col, (exists v, getitem record col = Ok v) \/
                             getitem record col = Raise (KeyError col)).
  { intros col. induction record as [|[k v] record IH]; simpl; [now right|].
    destruct (String.eqb k col); [left; eexists; reflexivity | exact IH]. }
  induction names as [|c names IH]; simpl; intros col Hin Hnot; [destruct Hin|].
  destruct (Hget c) as [[v Hv] | Hraise].
  - rewrite Hv. destruct Hin as [-> | Hin].
    + exfalso. apply Hnot. apply getitem_In in Hv.
      apply in_map_iff. exists (col, v). split; [reflexivity | exact Hv].
    + destruct (IH col Hin Hnot) as [missing ->]. exists missing. reflexivity.
  - rewrite Hraise. exists c. reflexivity.
Qed.

Lemma other_columns_map (drivername : string) (items : Row) :
  map (fun '(col, value) =>
         mkColumn col (infer_db_type value drivername) false) items =
  map (ordinary_column drivername) items.
Proof. apply map_ext. intros [col value]. reflexivity. Qed.

Lemma other_columns_filter (names : list string) (record : Row) :
  List.filter (fun '(col, _) => negb (list_in col names)) record =
  List.filter (fun item : string * PyVal => negb (list_in (fst item) names))
    record.
Proof.
  induction record as [|[col v] record IH]; simpl; [reflexivity|].
  now rewrite IH.
Qed.

(** The two branches of [_columns_from_sample_record]. *)
Lemma columns_with_primary_key (record : Row) (names : list string)
  (drivername : string) :
  names <> [] ->
  _columns_from_sample_record record names drivername =
    match primary_key_columns_of record names drivername with
    | Raise e => Raise e
    | Ok pk_cols =>
        Ok (pk_cols ++
            map (ordinary_column drivername)
                (List.filter (fun item => negb (list_in (fst item) names))
                   record))
    end.
Proof.
  intros Hne. unfold _columns_from_sample_record.
  destruct names as [|col names]; [congruence|].
  cbn [List.length Nat.ltb Nat.leb].
  destruct (primary_key_columns_of record (col :: names) drivername);
    [|reflexivity].
  now rewrite other_columns_map, other_columns_filter.
Qed.

Lemma columns_with_synthetic_key (record : Row) (drivername : string) :
  exists n,
    _columns_from_sample_record record [] drivername =
      Ok (mkColumn ("id" ++ underscores n) Integer true ::
          map (ordinary_column drivername) record) /\
    list_in ("id" ++ underscores n)%string (keys record) = false /\
    forall m, (m < n)%nat ->
      list_in ("id" ++ underscores m)%string (keys record) = true.
Proof.
  unfold _columns_from_sample_record. cbn [List.length Nat.ltb Nat.leb].
  destruct (pri_col_name_loop_total record "id") as [r Hr]. rewrite Hr.
  destruct (pri_col_name_loop_Some _ _ _ _ Hr) as (n & -> & Hfree & Hbusy).
  exists n. rewrite other_columns_map. repeat split; assumption.
Qed.

(** C3: [infer_db_type] takes the first matching rule in the order boolean,
    numeric (the value adds with 1 and has no length), timestamp, date; when
    none matches the type is text, unbounded on a dialect that supports it
    (PostgreSQL, SQLite) and bounded to 100 characters otherwise.  The order
    decides for a boolean, which is also numeric, and for a timestamp, which
    is also a date. *)
Theorem C3_infer_db_type_first_match (val : PyVal) (drivername : string) :
  infer_db_type val drivername = infer_db_type_spec val drivername /\
  (forall b, _is_number (PyBool b) = true /\
             infer_db_type (PyBool b) drivername = Boolean) /\
  (forall t, isinstance_date (PyDatetime t) = true /\
             infer_db_type (PyDatetime t) drivername = DateTime).
Proof.
  split; [|split; intros; split; reflexivity].
  unfold infer_db_type. rewrite first_match_rules.
  unfold infer_db_type_spec, _is_number, _does_support_varchar.
  destruct (isinstance_bool val); [reflexivity|].
  destruct (py_add_one val) as [[]|e]; simpl.
  - destruct (hasattr_len val); simpl; [|reflexivity].
    destruct (isinstance_datetime val); [reflexivity|].
    destruct (isinstance_date val); reflexivity.
  - destruct (isinstance_datetime val); [reflexivity|].
    destruct (isinstance_date val); reflexivity.
Qed.

(** C4: the columns made from a sample record.  With primary-key names, all
    of them keys of the sample, the named columns come first, each a
    primary-key column typed from the sample's value under that name, and
    the sample's other items follow as ordinary inferred columns.  With no
    primary-key name, the first column is an integer primary key named [id]
    followed by the least number of underscores that makes it differ from
    every sample key, and every item of the sample follows as an ordinary
    inferred column. *)
Theorem C4_columns_from_sample_record
  (record : Row) (primary_key_column_names : list string)
  (drivername : string) :
  (primary_key_column_names <> [] ->
   (forall col, In col primary_key_column_names -> In col (keys record)) ->
   exists primary_key_columns,
     _columns_from_sample_record record primary_key_column_names drivername =
       Ok (primary_key_columns ++
           map (ordinary_column drivername)
               (List.filter
                  (fun item =>
                     negb (list_in (fst item) primary_key_column_names))
                  record)) /\
     Forall2 (fun col c =>
                exists v, getitem record col = Ok v /\
                          c = mkColumn col (infer_db_type v drivername) true)
             primary_key_column_names primary_key_columns) /\
  (primary_key_column_names = [] ->
   exists n,
     _columns_from_sample_record record primary_key_column_names drivername =
       Ok (mkColumn ("id" ++ underscores n) Integer true ::
           map (ordinary_column drivername) record) /\
     list_in ("id" ++ underscores n)%string (keys record) = false /\
     forall m, (m < n)%nat ->
       list_in ("id" ++ underscores m)%string (keys record) = true).
Proof.
  split.
  - intros Hne Hkeys. rewrite columns_with_primary_key by exact Hne.
    destruct (primary_key_columns_of_total record drivername _ Hkeys)
      as [pk_cols Hpk].
    rewrite Hpk. exists pk_cols. split; [reflexivity|].
    apply primary_key_columns_of_Ok. exact Hpk.
  - intros ->. apply columns_with_synthetic_key.
Qed.

Lemma C4_witness :
  (exists primary_key_columns,
     _columns_from_sample_record jack3 ["id"] "sqlite" =
       Ok (primary_key_columns ++
           map (ordinary_column "sqlite")
               (List.filter (fun item => negb (list_in (fst item) ["id"]))
                  jack3)) /\
     Forall2 (fun col c =>
                exists v, getitem jack3 col = Ok v /\
                          c = mkColumn col (infer_db_type v "sqlite") true)
             ["id"] primary_key_columns) /\
  (exists n,
     _columns_from_sample_record jack3 [] "sqlite" =
       Ok (mkColumn ("id" ++ underscores n) Integer true ::
           map (ordinary_column "sqlite") jack3) /\
     list_in ("id" ++ underscores n)%string (keys jack3) = false /\
     forall m, (m < n)%nat ->
       list_in ("id" ++ underscores m)%string (keys jack3) = true).
Proof.
  split.
  - apply (proj1 (C4_columns_from_sample_record jack3 ["id"] "sqlite")).
    + discriminate.
    + intros col [<- | []]. simpl. left. reflexivity.
  - apply (proj2 (C4_columns_from_sample_record jack3 [] "sqlite")).
    reflexivity.
Defined.

(** A primary-key name that is not a key of the sample makes the lookup
    [record[col]] raise, and no columns are returned. *)
Lemma columns_missing_primary_key (record : Row) (names : list string)
  (drivername : string) (col : string) :
  In col names -> ~ In col (keys record) ->
  exists missing,
    _columns_from_sample_record record names drivername =
      Raise (KeyError missing).
Proof.
  intros Hin Hnot. rewrite columns_with_primary_key.
  - destruct (primary_key_columns_of_KeyError record drivername _ _ Hin Hnot)
      as [missing ->].
    exists missing. reflexivity.
  - intros ->. destruct Hin.
Qed.

Lemma Forall2_In_r {A B} (R : A -> B -> Prop) (l : list A) (r : list B)
  (y : B) :
  Forall2 R l r -> In y r -> exists x, In x l /\ R x y.
Proof.
  induction 1 as [|x y' l r Hxy _ IH]; simpl; [intros []|].
  intros [<- | Hin].
  - exists x. split; [now left | exact Hxy].
  - destruct (IH Hin) as (x' & Hx' & HR). exists x'.
    split; [now right | exact HR].
Qed.

(** C10: a value that is no boolean, adds with 1 and has no length, an
    [int] in particular, is given the floating-point type; inference never
    gives the integer type, and among the columns made from a sample only
    the synthetic primary key, made when no primary-key name is configured,
    has it. *)
Theorem C10_numbers_are_Float (drivername : string) :
  (forall val,
     isinstance_bool val = false -> py_add_one val = Ok tt ->
     hasattr_len val = false ->
     infer_db_type val drivername = Float) /\
  (forall z, infer_db_type (PyInt z) drivername = Float) /\
  (forall val, infer_db_type val drivername <> Integer) /\
  (forall record primary_key_column_names columns c,
     _columns_from_sample_record record primary_key_column_names drivername =
       Ok columns ->
     In c columns -> c_type c = Integer ->
     primary_key_column_names = [] /\
     c_primary_key c = true /\
     list_in (c_name c) (keys record) = false /\
     columns = c :: map (ordinary_column drivername) record).
Proof.
  split; [|split; [|split]].
  - intros val Hbool Hadd Hlen. unfold infer_db_type.
    rewrite first_match_rules. unfold _is_number.
    now rewrite Hbool, Hadd, Hlen.
  - reflexivity.
  - intros val. apply infer_db_type_not_Integer.
  - intros record names columns c Hcols Hin Htype.
    destruct names as [|col names].
    + destruct (columns_with_synthetic_key record drivername)
        as (n & Heq & Hfree & _).
      rewrite Heq in Hcols. injection Hcols as <-.
      destruct Hin as [<- | Hin].
      * repeat split; assumption.
      * apply in_map_iff in Hin as (item & <- & _).
        exfalso. exact (infer_db_type_not_Integer _ _ Htype).
    + exfalso. rewrite columns_with_primary_key in Hcols by discriminate.
      destruct (primary_key_columns_of record (col :: names) drivername)
        as [pk_cols|e] eqn:Hpk; [|discriminate].
      injection Hcols as <-. apply in_app_or in Hin as [Hin | Hin].
      * apply primary_key_columns_of_Ok in Hpk.
        destruct (Forall2_In_r _ _ _ _ Hpk Hin) as (col' & _ & v & _ & ->).
        exact (infer_db_type_not_Integer _ _ Htype).
      * apply in_map_iff in Hin as (item & <- & _).
        exact (infer_db_type_not_Integer _ _ Htype).
Qed.

Lemma C10_witness :
  infer_db_type (PyObject "Decimal" true false) "mysql" = Float /\
  (@nil string = [] /\
   c_primary_key (mkColumn "id_" Integer true) = true /\
   list_in (c_name (mkColumn "id_" Integer true)) (keys jack3) = false /\
   mkColumn "id_" Integer true :: map (ordinary_column "mysql") jack3 =
     mkColumn "id_" Integer true :: map (ordinary_column "mysql") jack3).
Proof.
  split.
  - apply (proj1 (C10_numbers_are_Float "mysql")); reflexivity.
  - apply (proj2 (proj2 (proj2 (C10_numbers_are_Float "mysql")))
             jack3 [] _ (mkColumn "id_" Integer true)).
    + reflexivity.
    + simpl. left. reflexivity.
    + reflexivity.
Defined.

(** ** The insert-statement builder *)

(** C5: the builder of a write is the table descriptor's own when it has
    one; otherwise the PostgreSQL upsert when the driver name contains
    [postgresql], else the MySQL upsert when it contains [mysql], else the
    plain insert. *)
Theorem C5_get_create_insert_f
  (source : SourceConfiguration.t) (table_config : TableConfiguration.t) :
  let drv := drivername (SourceConfiguration.url source) in
  (forall f,
     TableConfiguration.create_insert_f table_config = Some f ->
     _get_create_insert_f source table_config = f) /\
  (TableConfiguration.create_insert_f table_config = None ->
   str_in "postgresql" drv = true ->
   _get_create_insert_f source table_config = create_upsert_postgres) /\
  (TableConfiguration.create_insert_f table_config = None ->
   str_in "postgresql" drv = false -> str_in "mysql" drv = true ->
   _get_create_insert_f source table_config = create_upsert_mysql) /\
  (TableConfiguration.create_insert_f table_config = None ->
   str_in "postgresql" drv = false -> str_in "mysql" drv = false ->
   _get_create_insert_f source table_config = create_insert).
Proof.
  unfold _get_create_insert_f. cbv zeta.
  repeat split.
  - intros f ->. reflexivity.
  - intros -> ->. reflexivity.
  - intros -> -> ->. reflexivity.
  - intros -> -> ->. reflexivity.
Qed.

Lemma C5_witness :
  _get_create_insert_f postgres_source plain_insert_config = create_insert /\
  _get_create_insert_f postgres_source (students_config true) =
    create_upsert_postgres /\
  _get_create_insert_f mysql_source (students_config true) =
    create_upsert_mysql /\
  _get_create_insert_f sqlite_source (students_config true) = create_insert.
Proof.
  split; [|split; [|split]].
  - apply (proj1 (C5_get_create_insert_f postgres_source plain_insert_config)).
    reflexivity.
  - apply (proj1 (proj2 (C5_get_create_insert_f postgres_source
                           (students_config true)))); reflexivity.
  - apply (proj1 (proj2 (proj2 (C5_get_create_insert_f mysql_source
                                  (students_config true))))); reflexivity.
  - apply (proj2 (proj2 (proj2 (C5_get_create_insert_f sqlite_source
                                  (students_config true))))); reflexivity.
Defined.

(** ** Relations kept by the computations *)

Section Keeps.
Context (R : State -> State -> Prop) `{!PreOrder R}.

Lemma keeps_ret {A} (a : A) : keeps R (ret a).
Proof. intros st. reflexivity. Qed.

Lemma keeps_raise {A} (e : Exn) : keeps R (@raise A e).
Proof. intros st. reflexivity. Qed.

Lemma keeps_lift {A} (r : result A) : keeps R (lift r).
Proof. intros st. reflexivity. Qed.

Lemma keeps_get_state : keeps R get_state.
Proof. intros st. reflexivity. Qed.

Lemma keeps_the_session : keeps R the_session.
Proof.
intros st. unfold the_session. destruct (_session (self st)); reflexivity.
Qed.

Lemma keeps_bind {A B} (m : M A) (k : A -> M B) :
  keeps R m -> (forall a, keeps R (k a)) -> keeps R (bind m k).
Proof.
  intros Hm Hk st. unfold bind. specialize (Hm st).
  destruct (m st) as [st1 [a|e]]; simpl in Hm; [|exact Hm].
  transitivity st1; [exact Hm | apply Hk].
Qed.

Lemma keeps_try_except_reraise {A} (body : M A) (handler : M unit) :
  keeps R body -> keeps R handler -> keeps R (try_except_reraise body handler).
Proof.
  intros Hbody Hhandler st. unfold try_except_reraise. specialize (Hbody st).
  destruct (body st) as [st1 [a|e]]; simpl in Hbody; [exact Hbody|].
  specialize (Hhandler st1).
  destruct (handler st1) as [st2 [[]|e']]; simpl in *;
    (transitivity st1; [exact Hbody | exact Hhandler]).
Qed.
End Keeps.

Lemma keeps_weaken {A} (R R' : State -> State -> Prop) (m : M A) :
  (forall st st', R st st' -> R' st st') -> keeps R m -> keeps R' m.
Proof. intros Himp Hm st. apply Himp, Hm. Qed.

#[local] Instance same_self_preorder : PreOrder same_self.
Proof.
  split; [intros st; reflexivity|].
  intros a b c; unfold same_self; congruence.
Qed.

#[local] Instance same_cache_preorder : PreOrder same_cache.
Proof.
  split; [intros st; split; reflexivity|].
  intros a b c [? ?] [? ?]. split; congruence.
Qed.

#[local] Instance same_session_preorder : PreOrder same_session.
Proof.
  split; [intros st; reflexivity|].
  intros a b c; unfold same_session; congruence.
Qed.

#[local] Instance same_db_preorder : PreOrder same_db.
Proof.
  split; [intros st; reflexivity|].
  intros a b c; unfold same_db; congruence.
Qed.

#[local] Instance cache_grows_preorder : PreOrder cache_grows.
Proof.
  split; [intros st name table H; exact H|].
  intros a b c Hab Hbc name table H; auto.
Qed.

#[local] Instance adds_events_preorder (p : Event -> bool) :
  PreOrder (adds_events p).
Proof.
  split.
  - intros st. exists []. split; [now rewrite app_nil_r | reflexivity].
  - intros a b c (evs1 & H1 & Hp1) (evs2 & H2 & Hp2). exists (evs1 ++ evs2).
    split; [now rewrite H2, H1, app_assoc|].
    rewrite forallb_app, Hp1, Hp2. reflexivity.
Qed.

Lemma same_self_same_cache (st st' : State) :
  same_self st st' -> same_cache st st'.
Proof. unfold same_self, same_cache. intros ->. split; reflexivity. Qed.

Lemma same_self_same_session (st st' : State) :
  same_self st st' -> same_session st st'.
Proof. unfold same_self, same_session. intros ->. reflexivity. Qed.

Lemma same_cache_cache_grows (st st' : State) :
  same_cache st st' -> cache_grows st st'.
Proof. intros [Hc _] name table. now rewrite Hc. Qed.

Lemma adds_events_weaken (p q : Event -> bool) (st st' : State) :
  (forall ev, p ev = true -> q ev = true) ->
  adds_events p st st' -> adds_events q st st'.
Proof.
  intros Hpq (evs & Htrace & Hp). exists evs. split; [exact Htrace|].
  rewrite forallb_forall in *. auto.
Qed.

Lemma not_write_not_rollback_or_close (ev : Event) :
  not_write_event ev = true -> not_rollback_or_close ev = true.
Proof. destruct ev; simpl; intros H; first [reflexivity | discriminate H]. Qed.

(** *** The primitive steps *)

Create HintDb frame.

Lemma log_same_self (ev : Event) : keeps same_self (log ev).
Proof. intros st. reflexivity. Qed.

Lemma log_same_cache (ev : Event) : keeps same_cache (log ev).
Proof. intros st. split; reflexivity. Qed.

Lemma log_same_session (ev : Event) : keeps same_session (log ev).
Proof. intros st. reflexivity. Qed.

Lemma log_same_db (ev : Event) : keeps same_db (log ev).
Proof. intros st. reflexivity. Qed.

Lemma log_cache_grows (ev : Event) : keeps cache_grows (log ev).
Proof. intros st name table H. exact H. Qed.

Lemma log_adds_events (p : Event -> bool) (ev : Event) :
  p ev = true -> keeps (adds_events p) (log ev).
Proof. intros Hp st. exists [ev]. simpl. now rewrite Hp. Qed.

Lemma set_db_same_self (d : Database) : keeps same_self (set_db d).
Proof. intros st. reflexivity. Qed.

Lemma set_db_same_cache (d : Database) : keeps same_cache (set_db d).
Proof. intros st. split; reflexivity. Qed.

Lemma set_db_same_session (d : Database) : keeps same_session (set_db d).
Proof. intros st. reflexivity. Qed.

Lemma set_db_adds_events (p : Event -> bool) (d : Database) :
  keeps (adds_events p) (set_db d).
Proof. intros st. exists []. simpl. now rewrite app_nil_r. Qed.

Lemma set_session_same_cache (s : Session) : keeps same_cache (set_session s).
Proof. intros st. split; reflexivity. Qed.

Lemma set_session_same_db (s : Session) : keeps same_db (set_session s).
Proof. intros st. reflexivity. Qed.

Lemma set_session_adds_events (p : Event -> bool) (s : Session) :
  keeps (adds_events p) (set_session s).
Proof. intros st. exists []. simpl. now rewrite app_nil_r. Qed.

#[local] Hint Resolve log_same_self log_same_cache log_same_session
  log_same_db log_cache_grows set_db_same_self set_db_same_cache
  set_db_same_session set_db_adds_events set_session_same_cache
  set_session_same_db set_session_adds_events : frame.

(** The relation is kept by a computation when each of its steps keeps it. *)
Ltac frame :=
  repeat first
    [ solve [auto with frame]
    | apply log_adds_events; reflexivity
    | apply keeps_ret | apply keeps_raise | apply keeps_lift
    | apply keeps_get_state | apply keeps_the_session
    | apply keeps_try_except_reraise
    | apply keeps_bind
    | match goal with
      | |- PreOrder _ => typeclasses eauto
      | |- forall _, _ => intros ?
      | |- keeps _ (match ?x with _ => _ end) => destruct x
      end ].

(** *** The session *)

Lemma session_execute_same_cache `{Engine} (stmt : Stmt) :
  keeps same_cache (session_execute stmt).
Proof. unfold session_execute. frame. Qed.

Lemma session_commit_same_cache `{Engine} : keeps same_cache session_commit.
Proof. unfold session_commit. frame. Qed.

Lemma session_rollback_same_cache : keeps same_cache session_rollback.
Proof. unfold session_rollback. frame. Qed.

Lemma session_close_same_cache : keeps same_cache session_close.
Proof. unfold session_close. frame. Qed.

Lemma session_query_same_cache (cls : TableClass) :
  keeps same_cache (session_query cls).
Proof. unfold session_query. frame. Qed.

Lemma session_query_same_db (cls : TableClass) :
  keeps same_db (session_query cls).
Proof. unfold session_query. frame. Qed.

Lemma session_query_same_view (cls : TableClass) :
  keeps same_view (session_query cls).
Proof.
  intros st. unfold same_view, session_query, bind, the_session, log,
    get_state, set_session, set_self, ret, raise.
  destruct (_session (self st)) as [s|] eqn:Hs; simpl; [|now rewrite Hs].
  destruct (catalog (db st) !! t_name (__table__ cls)); simpl;
    split; reflexivity.
Qed.

Lemma session_query_reads (cls : TableClass) :
  keeps (adds_events not_write_event) (session_query cls).
Proof. unfold session_query. frame. Qed.

#[local] Hint Resolve session_execute_same_cache session_commit_same_cache
  session_rollback_same_cache session_close_same_cache
  session_query_same_cache session_query_same_db
  session_query_reads : frame.

(** *** The table handle *)

Lemma _Table_records_same_cache (table : _Table.t) :
  keeps same_cache (_Table_records table).
Proof. unfold _Table_records. frame. Qed.

Lemma _Table_records_same_db (table : _Table.t) :
  keeps same_db (_Table_records table).
Proof. unfold _Table_records. frame. Qed.

Lemma _Table_records_same_view (table : _Table.t) :
  keeps same_view (_Table_records table).
Proof.
  intros st. unfold _Table_records, bind, lift.
  pose proof (session_query_same_view (_Table._Class table) st) as Hquery.
  destruct (session_query (_Table._Class table) st) as [st1 [rows|e]];
    exact Hquery.
Qed.

Lemma _Table_records_reads (table : _Table.t) :
  keeps (adds_events not_write_event) (_Table_records table).
Proof. unfold _Table_records. frame. Qed.

Lemma _Table_write_record_same_cache `{Engine} (table : _Table.t)
  (create_insert_f : InsertF) (record_dict : Row) :
  keeps same_cache (_Table_write_record table create_insert_f record_dict).
Proof. unfold _Table_write_record. frame. Qed.

(** ** Resolving a table *)

(** What [load_table] does: without a session the attribute access raises;
    with one, the table is looked up and, when present, reflected. *)
Lemma load_table_eq (name : string) (st : State) :
  load_table name st =
    match _session (self st) with
    | None => (st, Raise AttributeError)
    | Some _ =>
        match catalog (db st) !! name with
        | Some columns =>
            (logged st [EvHasTable name; EvAutoload name],
             match create_table_class (Table name columns) with
             | Ok table_class => Ok (Some table_class)
             | Raise e => Raise e
             end)
        | None => (logged st [EvHasTable name], Ok None)
        end
    end.
Proof.
  unfold load_table, the_session, bind, log, get_state, ret, lift, logged.
  destruct (_session (self st)); [|reflexivity]. simpl.
  destruct (catalog (db st) !! name) as [columns|]; simpl; [|reflexivity].
  rewrite <- app_assoc.
  destruct (create_table_class (Table name columns)); reflexivity.
Qed.

Lemma load_table_same_self (name : string) : keeps same_self (load_table name).
Proof. unfold load_table. frame. Qed.

Lemma load_table_same_db (name : string) : keeps same_db (load_table name).
Proof. unfold load_table. frame. Qed.

Lemma load_table_reads (name : string) :
  keeps (adds_events not_write_event) (load_table name).
Proof. unfold load_table. frame. Qed.

Lemma tables_to_create_same_self (metadata : MetaData) :
  keeps same_self (tables_to_create metadata).
Proof. induction metadata as [|table rest IH]; simpl; frame. Qed.

Lemma tables_to_create_same_db (metadata : MetaData) :
  keeps same_db (tables_to_create metadata).
Proof. induction metadata as [|table rest IH]; simpl; frame. Qed.

Lemma tables_to_create_events (metadata : MetaData) :
  keeps (adds_events not_rollback_or_close) (tables_to_create metadata).
Proof. induction metadata as [|table rest IH]; simpl; frame. Qed.

Lemma create_tables_same_self `{Engine} (collection : list SaTable) :
  keeps same_self (create_tables collection).
Proof. induction collection as [|table rest IH]; simpl; frame. Qed.

Lemma create_tables_events `{Engine} (collection : list SaTable) :
  keeps (adds_events not_rollback_or_close) (create_tables collection).
Proof. induction collection as [|table rest IH]; simpl; frame. Qed.

#[local] Hint Resolve tables_to_create_same_self tables_to_create_same_db
  tables_to_create_events create_tables_same_self create_tables_events
  : frame.

(** The first part of [create_all]: one lookup per table, and the tables
    the database lacks as result. *)
Lemma tables_to_create_eq (metadata : MetaData) :
  forall st,
    tables_to_create metadata st =
      (logged st (map (fun table => EvHasTable (t_name table)) metadata),
       Ok (List.filter (is_missing (db st)) metadata)).
Proof.
  induction metadata as [|table rest IH]; intros st.
  - unfold logged. simpl. unfold ret. now rewrite app_nil_r; destruct st.
  - cbn [tables_to_create]. unfold bind, log, get_state, ret. rewrite IH.
    unfold logged, is_missing. simpl. rewrite <- app_assoc. simpl.
    destruct (catalog (db st) !! t_name table); reflexivity.
Qed.

(** One round of the second part. *)
Lemma create_tables_cons `{Engine} (table : SaTable) (rest : list SaTable)
  (st : State) :
  create_tables (table :: rest) st =
    match catalog (db st) !! t_name table with
    | Some _ =>
        (logged st [EvCreateTable table],
         Raise (EngineError "table already exists"))
    | None =>
        if ddl_ok table then
          create_tables rest
            (mkState (self st)
               (mkDatabase (db_exists (db st))
                  (<[t_name table := t_columns table]> (catalog (db st)))
                  (committed (db st)))
               (trace st ++ [EvCreateTable table]))
        else (logged st [EvCreateTable table],
              Raise (EngineError "create table"))
    end.
Proof.
  cbn [create_tables]. unfold bind, log, get_state, set_db, ret, raise, logged.
  simpl. destruct (catalog (db st) !! t_name table); simpl; [reflexivity|].
  destruct (ddl_ok table); reflexivity.
Qed.

(** [create_all] on the metadata of one table. *)
Lemma create_all_single `{Engine} (table : SaTable) (st : State) :
  create_all [table] st =
    match catalog (db st) !! t_name table with
    | Some _ => (logged st [EvHasTable (t_name table)], Ok tt)
    | None =>
        if ddl_ok table then
          (mkState (self st)
             (mkDatabase (db_exists (db st))
                (<[t_name table := t_columns table]> (catalog (db st)))
                (committed (db st)))
             (trace st ++ [EvHasTable (t_name table); EvCreateTable table]),
           Ok tt)
        else (logged st [EvHasTable (t_name table); EvCreateTable table],
              Raise (EngineError "create table"))
    end.
Proof.
  unfold create_all, bind. rewrite tables_to_create_eq.
  cbn [List.filter map]. unfold is_missing.
  destruct (catalog (db st) !! t_name table) eqn:Hlookup; [reflexivity|].
  rewrite create_tables_cons. cbn [db logged catalog]. rewrite Hlookup.
  destruct (ddl_ok table); unfold logged; cbn; rewrite <- app_assoc;
    reflexivity.
Qed.

Lemma create_all_same_self `{Engine} (metadata : MetaData) :
  keeps same_self (create_all metadata).
Proof. unfold create_all. frame. Qed.

Lemma create_all_events `{Engine} (metadata : MetaData) :
  keeps (adds_events not_rollback_or_close) (create_all metadata).
Proof. unfold create_all. frame. Qed.

#[local] Hint Resolve load_table_same_self load_table_same_db
  load_table_reads create_all_same_self create_all_events : frame.

Lemma load_table_events (name : string) :
  keeps (adds_events not_rollback_or_close) (load_table name).
Proof.
  eapply keeps_weaken; [|apply load_table_reads].
  intros st st'. apply adds_events_weaken, not_write_not_rollback_or_close.
Qed.

#[local] Hint Resolve load_table_events : frame.

Lemma create_table_same_self `{Engine} (name : string)
  (table_config : TableConfiguration.t) (record : Row) :
  keeps same_self (create_table name table_config record).
Proof. unfold create_table. frame. Qed.


(** What [_open_table] does: a cached table is returned as it is, with no
    step taken; otherwise the table is fetched, and cached when the fetch
    gave one. *)
Lemma _open_table_eq (name : string) (get_table_f : M (option TableClass))
  (st : State) :
  _open_table name get_table_f st =
    match _name_to_table (self st) !! name with
    | Some table => (st, Ok table)
    | None =>
        match get_table_f st with
        | (st1, Ok (Some cls)) =>
            (cached st1 name (_Table.__init__ cls name),
             Ok (_Table.__init__ cls name))
        | (st1, Ok None) =>
            (st1,
             Raise (SqlAlchemyDbException ("Failed to get table " ++ name)))
        | (st1, Raise e) => (st1, Raise e)
        end
    end.
Proof.
  unfold _open_table, _get_table, bind, get_state, ret, raise, set_self, cached.
  destruct (_name_to_table (self st) !! name); [reflexivity|].
  destruct (get_table_f st) as [st1 [[cls|]|e]]; reflexivity.
Qed.

(** A relation that does not look at the cache is kept by [_open_table]
    when the fetch keeps it. *)
Lemma _open_table_keeps (R : State -> State -> Prop) (name : string)
  (get_table_f : M (option TableClass)) :
  (forall st st' table, R st st' -> R st (cached st' name table)) ->
  (forall st, R st st) ->
  keeps R get_table_f -> keeps R (_open_table name get_table_f).
Proof.
  intros Hcached Hrefl Hget st. rewrite _open_table_eq.
  destruct (_name_to_table (self st) !! name); [apply Hrefl|].
  specialize (Hget st).
  destruct (get_table_f st) as [st1 [[cls|]|e]]; simpl in *; auto.
Qed.

Lemma _open_table_same_session (name : string)
  (get_table_f : M (option TableClass)) :
  keeps same_self get_table_f ->
  keeps same_session (_open_table name get_table_f).
Proof.
  intros Hget. apply _open_table_keeps.
  - intros st st' table H. exact H.
  - reflexivity.
  - eapply keeps_weaken; [apply same_self_same_session | exact Hget].
Qed.

Lemma _open_table_same_db (name : string)
  (get_table_f : M (option TableClass)) :
  keeps same_db get_table_f -> keeps same_db (_open_table name get_table_f).
Proof.
  intros Hget. apply _open_table_keeps; [|reflexivity|exact Hget].
  intros st st' table H. exact H.
Qed.

Lemma _open_table_adds_events (p : Event -> bool) (name : string)
  (get_table_f : M (option TableClass)) :
  keeps (adds_events p) get_table_f ->
  keeps (adds_events p) (_open_table name get_table_f).
Proof.
  intros Hget. apply _open_table_keeps; [|reflexivity|exact Hget].
  intros st st' table H. exact H.
Qed.

(** Fetching a table never drops or replaces a cached one. *)
Lemma _open_table_cache_grows (name : string)
  (get_table_f : M (option TableClass)) :
  keeps same_self get_table_f ->
  keeps cache_grows (_open_table name get_table_f).
Proof.
  intros Hget st. rewrite _open_table_eq.
  destruct (_name_to_table (self st) !! name) eqn:Hmiss; [reflexivity|].
  specialize (Hget st). unfold same_self in Hget.
  destruct (get_table_f st) as [st1 [[cls|]|e]]; simpl in *;
    intros n table Hn; unfold cached; simpl; rewrite Hget; [|exact Hn..].
  rewrite lookup_insert_ne; [exact Hn | congruence].
Qed.

(** A failed fetch leaves the manager as it was. *)
Lemma _open_table_Raise_same_self (name : string)
  (get_table_f : M (option TableClass)) (st st' : State) (e : Exn) :
  keeps same_self get_table_f ->
  _open_table name get_table_f st = (st', Raise e) ->
  self st' = self st.
Proof.
  intros Hget. rewrite _open_table_eq.
  destruct (_name_to_table (self st) !! name); [discriminate|].
  specialize (Hget st). unfold same_self in Hget.
  destruct (get_table_f st) as [st1 [[cls|]|e1]]; simpl in *;
    [discriminate | intros [= <- _]; exact Hget..].
Qed.

(** A successful fetch leaves the table in the cache. *)
Lemma _open_table_Ok_cached (name : string)
  (get_table_f : M (option TableClass)) (st st' : State) (table : _Table.t) :
  _open_table name get_table_f st = (st', Ok table) ->
  _name_to_table (self st') !! name = Some table.
Proof.
  rewrite _open_table_eq.
  destruct (_name_to_table (self st) !! name) eqn:Hhit.
  - intros [= <- <-]. exact Hhit.
  - destruct (get_table_f st) as [st1 [[cls|]|e1]]; [|discriminate..].
    intros [= <- <-]. simpl. apply lookup_insert_eq.
Qed.

(** *** A table the database lacks *)

Lemma _open_table_for_read_absent (name : string) (st : State) (s : Session) :
  _session (self st) = Some s ->
  catalog (db st) !! name = None ->
  _name_to_table (self st) !! name = None ->
  _open_table_for_read name st =
    (logged st [EvHasTable name],
     Raise (SqlAlchemyDbException ("Failed to get table " ++ name))).
Proof.
  intros Hs Hcat Hcache. unfold _open_table_for_read.
  rewrite _open_table_eq, Hcache, load_table_eq, Hs, Hcat. reflexivity.
Qed.

Lemma create_table_absent `{Engine} (name : string)
  (table_config : TableConfiguration.t) (record : Row) (st : State)
  (s : Session) :
  _session (self st) = Some s ->
  catalog (db st) !! name = None ->
  TableConfiguration.create_table_if_missing table_config = false ->
  create_table name table_config record st =
    (logged st [EvHasTable name], Ok None).
Proof.
  intros Hs Hcat Hflag. unfold create_table, bind.
  rewrite load_table_eq, Hs, Hcat, Hflag. reflexivity.
Qed.

Lemma _open_table_for_write_absent `{Engine}
  (table_config : TableConfiguration.t) (record : Row) (st : State)
  (s : Session) :
  _session (self st) = Some s ->
  catalog (db st) !! TableConfiguration.name table_config = None ->
  _name_to_table (self st) !! TableConfiguration.name table_config = None ->
  TableConfiguration.create_table_if_missing table_config = false ->
  _open_table_for_write table_config record st =
    (logged st [EvHasTable (TableConfiguration.name table_config)],
     Raise (SqlAlchemyDbException
              ("Failed to get table " ++
               TableConfiguration.name table_config))).
Proof.
  intros Hs Hcat Hcache Hflag. unfold _open_table_for_write.
  rewrite _open_table_eq, Hcache.
  rewrite (create_table_absent _ _ _ _ _ Hs Hcat Hflag). reflexivity.
Qed.

(** *** A table the database has *)

Lemma create_table_present `{Engine} (name : string)
  (table_config : TableConfiguration.t) (record : Row) (st : State)
  (s : Session) (columns : list Column) :
  _session (self st) = Some s ->
  catalog (db st) !! name = Some columns ->
  create_table name table_config record st =
    (logged st [EvHasTable name; EvAutoload name],
     match create_table_class (Table name columns) with
     | Ok table_class => Ok (Some table_class)
     | Raise e => Raise e
     end).
Proof.
  intros Hs Hcat. unfold create_table, bind.
  rewrite load_table_eq, Hs, Hcat.
  destruct (create_table_class (Table name columns)); reflexivity.
Qed.

(** A table has a class exactly when it has a primary-key column. *)
Lemma create_table_class_Ok (table : SaTable) :
  primary_key table <> [] ->
  create_table_class table = Ok (mkTableClass table).
Proof.
  unfold create_table_class. destruct (primary_key table); congruence.
Qed.

Lemma create_table_class_Raise (table : SaTable) :
  primary_key table = [] ->
  create_table_class table = Raise ArgumentError.
Proof. unfold create_table_class. now intros ->. Qed.

(** The columns made from a sample begin with a primary-key column, so the
    table made of them has a class. *)
Lemma sample_columns_have_key (record : Row) (names : list string)
  (drivername : string) (columns : list Column) (name : string) :
  _columns_from_sample_record record names drivername = Ok columns ->
  primary_key (Table name columns) <> [] /\
  create_table_class (Table name columns) =
    Ok (mkTableClass (Table name columns)).
Proof.
  intros Hcols.
  assert (Hkey : primary_key (Table name columns) <> []).
  { destruct names as [|col names].
    - destruct (columns_with_synthetic_key record drivername)
        as (n & Heq & _).
      rewrite Heq in Hcols. injection Hcols as <-. discriminate.
    - remember (col :: names) as pks eqn:Hpks.
      rewrite columns_with_primary_key in Hcols by (subst pks; discriminate).
      destruct (primary_key_columns_of record pks drivername)
        as [pk_cols|e] eqn:Hpk; [|discriminate].
      injection Hcols as <-. apply primary_key_columns_of_Ok in Hpk.
      subst pks. inversion Hpk as [|? c ? rest (v & _ & ->) _]; subst.
      discriminate. }
  split; [exact Hkey | exact (create_table_class_Ok _ Hkey)].
Qed.

(** *** A table created from the sample *)

Lemma create_table_creates `{Engine} (name : string)
  (table_config : TableConfiguration.t) (record : Row) (st : State)
  (s : Session) (columns : list Column) :
  _session (self st) = Some s ->
  catalog (db st) !! name = None ->
  TableConfiguration.create_table_if_missing table_config = true ->
  TableConfiguration.define_table_f table_config = None ->
  _columns_from_sample_record record
    (TableConfiguration.primary_key_column_names table_config)
    (drivername (SourceConfiguration.url (_source (self st)))) = Ok columns ->
  ddl_ok (Table name columns) = true ->
  create_table name table_config record st =
    (created st (Table name columns),
     Ok (Some (mkTableClass (Table name columns)))).
Proof.
  intros Hs Hcat Hflag Hdef Hcols Hddl. unfold create_table, bind.
  rewrite load_table_eq, Hs, Hcat, Hflag, Hdef.
  unfold get_state, lift, _get_default_define_f. cbv beta iota.
  cbn [self logged]. rewrite Hcols. cbn [fst snd app].
  rewrite (proj2 (sample_columns_have_key _ _ _ _ name Hcols)).
  rewrite create_all_single. cbn [db logged catalog t_name].
  rewrite Hcat, Hddl. unfold created, ret. cbn. rewrite <- !app_assoc.
  reflexivity.
Qed.

Lemma _open_table_for_write_creates `{Engine}
  (table_config : TableConfiguration.t) (record : Row) (st : State)
  (s : Session) (columns : list Column) :
  let name := TableConfiguration.name table_config in
  let table := _Table.__init__ (mkTableClass (Table name columns)) name in
  _session (self st) = Some s ->
  catalog (db st) !! name = None ->
  _name_to_table (self st) !! name = None ->
  TableConfiguration.create_table_if_missing table_config = true ->
  TableConfiguration.define_table_f table_config = None ->
  _columns_from_sample_record record
    (TableConfiguration.primary_key_column_names table_config)
    (drivername (SourceConfiguration.url (_source (self st)))) = Ok columns ->
  ddl_ok (Table name columns) = true ->
  _open_table_for_write table_config record st =
    (cached (created st (Table name columns)) name table, Ok table).
Proof.
  intros name table Hs Hcat Hcache Hflag Hdef Hcols Hddl.
  unfold _open_table_for_write. fold name.
  rewrite _open_table_eq, Hcache.
  rewrite (create_table_creates name _ _ _ _ _ Hs Hcat Hflag Hdef Hcols Hddl).
  reflexivity.
Qed.

(** *** Reading and writing *)

Lemma read_same_db (table_name : string) : keeps same_db (read table_name).
Proof.
  unfold read, _open_table_for_read. apply keeps_bind.
  - typeclasses eauto.
  - apply _open_table_same_db, load_table_same_db.
  - intros table. apply _Table_records_same_db.
Qed.

Lemma same_view_refl (st : State) : same_view st st.
Proof.
  unfold same_view. destruct (_session (self st)); [split; reflexivity|exact I].
Qed.

Lemma same_view_trans (a b c : State) :
  same_view a b -> same_view b c -> same_view a c.
Proof.
  unfold same_view.
  destruct (_session (self a)), (_session (self b)), (_session (self c));
    try tauto.
  intros [Hv Hc] [Hv' Hc']. split; congruence.
Qed.

Lemma read_same_view (table_name : string) : keeps same_view (read table_name).
Proof.
  intros st. unfold read, _open_table_for_read, bind.
  pose proof (_open_table_same_session table_name (load_table table_name)
                (load_table_same_self _) st) as Hsession.
  pose proof (_open_table_same_db table_name (load_table table_name)
                (load_table_same_db _) st) as Hdb.
  destruct (_open_table table_name (load_table table_name) st)
    as [st1 [table|e]]; simpl in Hsession, Hdb;
    unfold same_session in Hsession; unfold same_db in Hdb.
  - apply same_view_trans with (b := st1); [|apply _Table_records_same_view].
    unfold same_view. rewrite Hsession, Hdb. apply same_view_refl.
  - simpl. unfold same_view. rewrite Hsession, Hdb. apply same_view_refl.
Qed.

Lemma read_reads (table_name : string) :
  keeps (adds_events not_write_event) (read table_name).
Proof.
  unfold read, _open_table_for_read. apply keeps_bind.
  - typeclasses eauto.
  - apply _open_table_adds_events, load_table_reads.
  - intros table. apply _Table_records_reads.
Qed.

Lemma read_cache_grows (table_name : string) :
  keeps cache_grows (read table_name).
Proof.
  unfold read, _open_table_for_read. apply keeps_bind.
  - typeclasses eauto.
  - apply _open_table_cache_grows, load_table_same_self.
  - intros table. eapply keeps_weaken; [apply same_cache_cache_grows|].
    apply _Table_records_same_cache.
Qed.

Lemma write_record_cache_grows `{Engine}
  (table_config : TableConfiguration.t) (record_dict : Row) :
  keeps cache_grows (write_record table_config record_dict).
Proof.
  unfold write_record, _open_table_for_write. apply keeps_bind.
  - typeclasses eauto.
  - apply _open_table_cache_grows, create_table_same_self.
  - intros table.
    apply keeps_bind;
      [typeclasses eauto | apply keeps_get_state; typeclasses eauto |].
    intros st. eapply keeps_weaken; [apply same_cache_cache_grows|].
    apply _Table_write_record_same_cache.
Qed.

Ltac run_start_session st :=
  unfold start_session, bind, get_state, log, set_db, set_self, ret, raise;
  simpl;
  destruct (SourceConfiguration.create_if_missing (_source (self st))); simpl;
  [destruct (database_exists_ok (SourceConfiguration.url (_source (self st))));
   simpl;
   [destruct (db_exists (db st)); simpl;
    [|destruct (create_database_ok
                 (SourceConfiguration.url (_source (self st)))); simpl]|]|].

Lemma start_session_same_cache `{Engine} : keeps same_cache start_session.
Proof. intros st. run_start_session st; split; reflexivity. Qed.

Lemma close_session_same_cache : keeps same_cache close_session.
Proof.
  intros st.
  unfold close_session, session_close, the_session, set_session, bind,
    get_state, log, set_self.
  destruct (_session (self st)); simpl; split; reflexivity.
Qed.

Lemma call_cache_grows `{Engine} (c : Call) (st : State) :
  cache_grows st (call c st).
Proof.
  destruct c; simpl.
  - apply same_cache_cache_grows, start_session_same_cache.
  - apply same_cache_cache_grows, close_session_same_cache.
  - apply read_cache_grows.
  - apply write_record_cache_grows.
Qed.

Lemma calls_cache_grows `{Engine} (cs : list Call) :
  forall st, cache_grows st (calls cs st).
Proof.
  induction cs as [|c cs IH]; intros st; simpl; [reflexivity|].
  transitivity (call c st); [apply call_cache_grows | apply IH].
Qed.

Lemma read_absent (name : string) (st : State) (s : Session) :
  _session (self st) = Some s ->
  catalog (db st) !! name = None ->
  _name_to_table (self st) !! name = None ->
  read name st =
    (logged st [EvHasTable name],
     Raise (SqlAlchemyDbException ("Failed to get table " ++ name))).
Proof.
  intros Hs Hcat Hcache. unfold read, bind.
  rewrite (_open_table_for_read_absent _ _ _ Hs Hcat Hcache). reflexivity.
Qed.

Lemma write_record_absent `{Engine}
  (table_config : TableConfiguration.t) (record : Row) (st : State)
  (s : Session) :
  _session (self st) = Some s ->
  catalog (db st) !! TableConfiguration.name table_config = None ->
  _name_to_table (self st) !! TableConfiguration.name table_config = None ->
  TableConfiguration.create_table_if_missing table_config = false ->
  write_record table_config record st =
    (logged st [EvHasTable (TableConfiguration.name table_config)],
     Raise (SqlAlchemyDbException
              ("Failed to get table " ++
               TableConfiguration.name table_config))).
Proof.
  intros Hs Hcat Hcache Hflag. unfold write_record, bind.
  rewrite (_open_table_for_write_absent _ _ _ _ Hs Hcat Hcache Hflag).
  reflexivity.
Qed.

(** *** A write that fails after the table was resolved *)

Ltac run_session :=
  unfold _Table_write_record, try_except_reraise, session_execute,
    session_commit, session_rollback, session_close, the_session,
    set_session, bind, lift, log, get_state, set_self, set_db, ret, raise;
  simpl.

Lemma _Table_write_record_Raise `{Engine} (table : _Table.t)
  (create_insert_f : InsertF) (record_dict : Row) (st st' : State)
  (s : Session) (e : Exn) :
  _session (self st) = Some s ->
  _Table_write_record table create_insert_f record_dict st = (st', Raise e) ->
  rolled_back_then_closed st st' /\ db st' = db st.
Proof.
  intros Hs. run_session.
  destruct (create_insert_f (_Table._sqlalchemy_table table) record_dict)
    as [stmt|e0]; simpl; rewrite ?Hs; simpl.
  - destruct (run_stmt stmt (view s (db st))) as [rows|e1]; simpl.
    + unfold view at 1. simpl.
      destruct (commit_ok rows) eqn:Hcommit; simpl; [discriminate|].
      intros [= <- <-]. split; [|reflexivity]. split; [|reflexivity].
      exists [EvExecute stmt; EvCommit]. simpl. now rewrite <- !app_assoc.
    + rewrite Hs. simpl. intros [= <- <-]. split; [|reflexivity].
      split; [|reflexivity].
      exists [EvExecute stmt]. simpl. now rewrite <- !app_assoc.
  - intros [= <- <-]. split; [|reflexivity]. split; [|reflexivity].
    exists []. simpl. now rewrite <- !app_assoc.
Qed.




(** ** The cache names tables of the database *)

#[local] Instance catalog_keeps_preorder : PreOrder catalog_keeps.
Proof.
  split; [intros st name H; exact H|].
  intros a b c Hab Hbc name H; auto.
Qed.

Lemma same_catalog_catalog_keeps (st st' : State) :
  catalog (db st') = catalog (db st) -> catalog_keeps st st'.
Proof. intros Hcat name. now rewrite Hcat. Qed.

Lemma same_db_catalog_keeps (st st' : State) :
  same_db st st' -> catalog_keeps st st'.
Proof.
  unfold same_db. intros Hdb. apply same_catalog_catalog_keeps.
  now rewrite Hdb.
Qed.

Lemma load_table_catalog_keeps (name : string) :
  keeps catalog_keeps (load_table name).
Proof.
  eapply keeps_weaken; [apply same_db_catalog_keeps | apply load_table_same_db].
Qed.

#[local] Instance catalog_grows_preorder : PreOrder catalog_grows.
Proof.
  split; [intros st name columns Hn; exact Hn|].
  intros a b c Hab Hbc name columns Hn; auto.
Qed.

Lemma same_catalog_catalog_grows (st st' : State) :
  catalog (db st') = catalog (db st) -> catalog_grows st st'.
Proof. intros Hcat name columns. now rewrite Hcat. Qed.

Lemma catalog_grows_catalog_keeps (st st' : State) :
  catalog_grows st st' -> catalog_keeps st st'.
Proof. intros Hgrows name [columns Hn]. exists columns. auto. Qed.

Lemma create_tables_catalog_grows `{Engine} (collection : list SaTable) :
  keeps catalog_grows (create_tables collection).
Proof.
  induction collection as [|table rest IH]; intros st; [reflexivity|].
  rewrite create_tables_cons.
  destruct (catalog (db st) !! t_name table) eqn:Hlookup;
    [now apply same_catalog_catalog_grows|].
  destruct (ddl_ok table); [|now apply same_catalog_catalog_grows].
  etransitivity; [|apply IH]. intros name columns Hn. simpl.
  rewrite lookup_insert_ne; [exact Hn | congruence].
Qed.

Lemma create_all_catalog_grows `{Engine} (metadata : MetaData) :
  keeps catalog_grows (create_all metadata).
Proof.
  intros st. unfold create_all, bind. rewrite tables_to_create_eq.
  etransitivity; [|apply create_tables_catalog_grows].
  now apply same_catalog_catalog_grows.
Qed.

Lemma create_all_catalog_keeps `{Engine} (metadata : MetaData) :
  keeps catalog_keeps (create_all metadata).
Proof.
  intros st. apply catalog_grows_catalog_keeps, create_all_catalog_grows.
Qed.

Lemma create_tables_Ok_in_catalog `{Engine} (collection : list SaTable) :
  forall st st',
    create_tables collection st = (st', Ok tt) ->
    forall table, In table collection ->
      is_Some (catalog (db st') !! t_name table).
Proof.
  induction collection as [|table rest IH]; intros st st' Hrun t Hin;
    [destruct Hin|].
  rewrite create_tables_cons in Hrun.
  destruct (catalog (db st) !! t_name table); [discriminate|].
  destruct (ddl_ok table); [|discriminate].
  destruct Hin as [<- | Hin]; [|exact (IH _ _ Hrun t Hin)].
  match type of Hrun with
  | create_tables rest ?st1 = _ =>
      pose proof (create_tables_catalog_grows rest st1) as Hgrows
  end.
  rewrite Hrun in Hgrows. exists (t_columns table). apply Hgrows. simpl.
  apply lookup_insert_eq.
Qed.

(** When [create_all] returns, the database has every table of the
    metadata. *)
Lemma create_all_Ok_in_catalog `{Engine} (metadata : MetaData) :
  forall st st',
    create_all metadata st = (st', Ok tt) ->
    forall table, In table metadata ->
      is_Some (catalog (db st') !! t_name table).
Proof.
  intros st st' Hrun table Hin. unfold create_all, bind in Hrun.
  rewrite tables_to_create_eq in Hrun.
  destruct (catalog (db st) !! t_name table) as [columns|] eqn:Hlookup.
  - pose proof (create_tables_catalog_grows
                  (List.filter (is_missing (db st)) metadata)
                  (logged st
                     (map (fun table => EvHasTable (t_name table)) metadata)))
      as Hgrows.
    rewrite Hrun in Hgrows. exists columns. apply Hgrows. exact Hlookup.
  - apply (create_tables_Ok_in_catalog _ _ _ Hrun).
    apply List.filter_In. split; [exact Hin|].
    unfold is_missing. now rewrite Hlookup.
Qed.

Lemma load_table_Some_in_catalog (name : string) (st st' : State)
  (cls : TableClass) :
  load_table name st = (st', Ok (Some cls)) ->
  is_Some (catalog (db st') !! name).
Proof.
  rewrite load_table_eq. destruct (_session (self st)); [|discriminate].
  destruct (catalog (db st) !! name) eqn:Hlookup; [|discriminate].
  intros [= <- _]. simpl. rewrite Hlookup. eauto.
Qed.

#[local] Hint Resolve load_table_catalog_keeps create_all_catalog_keeps
  : frame.

Lemma create_table_catalog_keeps `{Engine} (name : string)
  (table_config : TableConfiguration.t) (record : Row) :
  keeps catalog_keeps (create_table name table_config record).
Proof. unfold create_table. frame. Qed.

Lemma create_table_Some_in_catalog `{Engine} (name : string)
  (table_config : TableConfiguration.t) (record : Row) (st st' : State)
  (cls : TableClass) :
  TableConfiguration.define_table_f table_config = None ->
  create_table name table_config record st = (st', Ok (Some cls)) ->
  is_Some (catalog (db st') !! name).
Proof.
  intros Hdef. unfold create_table, bind.
  destruct (load_table name st) as [st1 [[cls1|]|e]] eqn:Hload;
    [| |discriminate].
  - intros [= <- _]. exact (load_table_Some_in_catalog _ _ _ _ Hload).
  - destruct (TableConfiguration.create_table_if_missing table_config);
      [|discriminate].
    rewrite Hdef. unfold get_state, lift, _get_default_define_f. cbv beta iota.
    destruct (_columns_from_sample_record record
                (TableConfiguration.primary_key_column_names table_config)
                (drivername (SourceConfiguration.url (_source (self st1)))))
      as [columns|e]; cbn [fst snd app]; [|discriminate].
    destruct (create_all [Table name columns] st1) as [st2 [[]|e]] eqn:Hall;
      [|discriminate].
    destruct (create_table_class (Table name columns)); [|discriminate].
    intros [= <- _].
    apply (create_all_Ok_in_catalog _ _ _ Hall (Table name columns)).
    now left.
Qed.

Lemma cache_in_catalog_step (st st' : State) :
  same_cache st st' -> catalog_keeps st st' ->
  cache_in_catalog st -> cache_in_catalog st'.
Proof.
  intros [Hcache _] Hcat Hinv name Hsome. rewrite Hcache in Hsome. auto.
Qed.

Lemma _open_table_cache_in_catalog (name : string)
  (get_table_f : M (option TableClass)) (st : State) :
  keeps same_self get_table_f ->
  keeps catalog_keeps get_table_f ->
  (forall st1 cls,
     get_table_f st = (st1, Ok (Some cls)) ->
     is_Some (catalog (db st1) !! name)) ->
  cache_in_catalog st ->
  cache_in_catalog (fst (_open_table name get_table_f st)).
Proof.
  intros Hself Hcat Hpost Hinv. rewrite _open_table_eq.
  destruct (_name_to_table (self st) !! name); [exact Hinv|].
  specialize (Hself st). specialize (Hcat st).
  destruct (get_table_f st) as [st1 [[cls|]|e]] eqn:Hget; simpl in *;
    try (apply (cache_in_catalog_step st st1);
         [apply same_self_same_cache, Hself | exact Hcat | exact Hinv]).
  intros n. unfold cached. simpl.
  destruct (decide (name = n)) as [<- | Hne].
  - intros _. exact (Hpost _ _ eq_refl).
  - rewrite lookup_insert_ne by exact Hne. rewrite Hself. intros Hsome.
    apply Hcat, Hinv, Hsome.
Qed.

Lemma _Table_write_record_same_catalog `{Engine} (table : _Table.t)
  (create_insert_f : InsertF) (record_dict : Row) (st : State) :
  catalog (db (fst (_Table_write_record table create_insert_f record_dict st)))
  = catalog (db st).
Proof.
  run_session.
  destruct (_session (self st)) as [s|] eqn:Hs;
    destruct (create_insert_f (_Table._sqlalchemy_table table) record_dict)
      as [stmt|e0]; simpl; rewrite ?Hs; simpl; try reflexivity.
  destruct (run_stmt stmt (view s (db st))) as [rows|e1]; simpl;
    rewrite ?Hs; simpl; [|reflexivity].
  unfold view at 1. simpl. destruct (commit_ok rows); reflexivity.
Qed.

Lemma start_session_same_catalog `{Engine} (st : State) :
  catalog (db (fst (start_session st))) = catalog (db st).
Proof. run_start_session st; reflexivity. Qed.

Lemma close_session_same_db : keeps same_db close_session.
Proof.
  intros st.
  unfold close_session, session_close, the_session, set_session, bind,
    get_state, log, set_self.
  destruct (_session (self st)); reflexivity.
Qed.

(** Every call keeps the cached names among the tables of the database,
    as long as the created tables are defined from the sample. *)
Lemma call_cache_in_catalog `{Engine} (c : Call) (st : State) :
  defines_from_sample c ->
  cache_in_catalog st -> cache_in_catalog (call c st).
Proof.
  destruct c as [| |table_name|table_config record_dict]; simpl;
    intros Hdef Hinv.
  - apply (cache_in_catalog_step st);
      [apply start_session_same_cache| |exact Hinv].
    apply same_catalog_catalog_keeps, start_session_same_catalog.
  - apply (cache_in_catalog_step st);
      [apply close_session_same_cache| |exact Hinv].
    apply same_db_catalog_keeps, close_session_same_db.
  - unfold read, bind.
    pose proof (_open_table_cache_in_catalog table_name (load_table table_name)
                  st (load_table_same_self _) (load_table_catalog_keeps _)
                  (load_table_Some_in_catalog _ _) Hinv) as Hopen.
    unfold _open_table_for_read.
    destruct (_open_table table_name (load_table table_name) st)
      as [st1 [table|e]]; simpl in *; [|exact Hopen].
    apply (cache_in_catalog_step st1); [| |exact Hopen].
    + apply _Table_records_same_cache.
    + apply same_db_catalog_keeps, _Table_records_same_db.
  - unfold write_record, bind, _open_table_for_write.
    pose proof (_open_table_cache_in_catalog
                  (TableConfiguration.name table_config)
                  (create_table (TableConfiguration.name table_config)
                     table_config record_dict)
                  st (create_table_same_self _ _ _)
                  (create_table_catalog_keeps _ _ _)
                  (fun st1 cls =>
                     create_table_Some_in_catalog _ _ _ _ _ _ Hdef) Hinv)
      as Hopen.
    destruct (_open_table (TableConfiguration.name table_config)
                (create_table (TableConfiguration.name table_config)
                   table_config record_dict) st)
      as [st1 [table|e]]; simpl in *; [|exact Hopen].
    unfold get_state.
    apply (cache_in_catalog_step st1); [| |exact Hopen].
    + apply _Table_write_record_same_cache.
    + apply same_catalog_catalog_keeps, _Table_write_record_same_catalog.
Qed.

Lemma calls_cache_in_catalog `{Engine} (cs : list Call) :
  Forall defines_from_sample cs ->
  forall st, cache_in_catalog st -> cache_in_catalog (calls cs st).
Proof.
  induction 1 as [|c cs Hc _ IH]; intros st Hinv; simpl; [exact Hinv|].
  apply IH, call_cache_in_catalog; assumption.
Qed.

Lemma cache_in_catalog_absent (st : State) (name : string) :
  cache_in_catalog st ->
  catalog (db st) !! name = None ->
  _name_to_table (self st) !! name = None.
Proof.
  intros Hinv Habsent.
  destruct (_name_to_table (self st) !! name) as [table|] eqn:Hcached;
    [|reflexivity].
  destruct (Hinv name) as [columns Hcolumns]; [eauto|]. congruence.
Qed.

(** So, on a manager driven by such calls from its creation, a table that
    the database lacks is not cached. *)
Lemma absent_table_not_cached `{Engine} (source : SourceConfiguration.t)
  (d : Database) (cs : list Call) (name : string) :
  Forall defines_from_sample cs ->
  let st := calls cs (mkState (__init__ source) d []) in
  catalog (db st) !! name = None ->
  _name_to_table (self st) !! name = None.
Proof.
  intros Hcs st Habsent. apply cache_in_catalog_absent; [|exact Habsent].
  apply calls_cache_in_catalog; [exact Hcs|].
  intros n [table Hn]. simpl in Hn. rewrite lookup_empty in Hn.
  discriminate Hn.
Qed.

(** ** The contract of the connection manager *)

Lemma _Table_write_record_Ok `{Engine} (table : _Table.t)
  (create_insert_f : InsertF) (record_dict : Row) (st : State)
  (s : Session) (stmt : Stmt) (rows : Rows) :
  _session (self st) = Some s ->
  create_insert_f (_Table._sqlalchemy_table table) record_dict = Ok stmt ->
  run_stmt stmt (view s (db st)) = Ok rows ->
  commit_ok rows = true ->
  _Table_write_record table create_insert_f record_dict st =
    (mkState
       (mkSqlAlchemyDB (_source (self st)) (Some (mkSession None (closed s)))
          (_name_to_table (self st)))
       (mkDatabase (db_exists (db st)) (catalog (db st)) rows)
       (trace st ++ [EvExecute stmt; EvCommit]),
     Ok tt).
Proof.
  intros Hs Hstmt Hrun Hcommit. run_session.
  rewrite Hstmt. simpl. rewrite Hs. simpl. rewrite Hrun. simpl.
  unfold view at 1. simpl. rewrite Hcommit. simpl.
  now rewrite <- app_assoc.
Qed.







(** C2, as the code has it: a table resolved by a read or a write is in
    the cache under its name, and from then on every read or write of that
    name gets the cached handle with no step taken (no lookup, no
    inference, no creation); no call on the manager removes or replaces the
    entry, [close_session] included: the cache lives as long as the manager
    object. *)
Theorem C2_cached_table_reused `{Engine} (name : string) :
  (forall get_table_f st st' table,
     _open_table name get_table_f st = (st', Ok table) ->
     _name_to_table (self st') !! name = Some table) /\
  (forall st table,
     _name_to_table (self st) !! name = Some table ->
     _open_table_for_read name st = (st, Ok table) /\
     (forall table_config record,
        TableConfiguration.name table_config = name ->
        _open_table_for_write table_config record st = (st, Ok table)) /\
     _name_to_table (self (fst (close_session st))) !! name = Some table /\
     (forall cs, _name_to_table (self (calls cs st)) !! name = Some table)).
Proof.
  split.
  - intros get_table_f st st' table. apply _open_table_Ok_cached.
  - intros st table Hhit. repeat split.
    + unfold _open_table_for_read. now rewrite _open_table_eq, Hhit.
    + intros table_config record <-. unfold _open_table_for_write.
      now rewrite _open_table_eq, Hhit.
    + apply same_cache_cache_grows with (st := st);
        [apply close_session_same_cache | exact Hhit].
    + intros cs. apply (calls_cache_grows cs st). exact Hhit.
Qed.

Lemma C2_witness :
  _open_table_for_read "students" written_state =
    (written_state, Ok students_table) /\
  @_open_table_for_write accepting_engine (students_config false)
     [("unknown", PyNone)] written_state = (written_state, Ok students_table) /\
  _name_to_table (self (fst (close_session written_state))) !! "students" =
    Some students_table /\
  _name_to_table
    (self (@calls accepting_engine [CallClose; CallStart; CallRead "students"]
             written_state))
    !! "students" = Some students_table.
Proof.
  destruct (proj2 (@C2_cached_table_reused accepting_engine "students")
              written_state students_table)
    as (Hread & Hwrite & Hclose & Hcalls).
  - vm_compute. reflexivity.
  - split; [exact Hread|]. split; [apply Hwrite; reflexivity|].
    split; [exact Hclose | apply Hcalls].
Defined.

(** Against C2 as the specification words it: closing the session does not
    drop the cached table. *)
Lemma C2_counterexample :
  _name_to_table (self written_state) !! "students" = Some students_table /\
  snd (close_session written_state) = Ok tt /\
  _session (self (fst (close_session written_state))) = None /\
  _name_to_table (self (fst (close_session written_state))) !! "students" <>
    None.
Proof.
  split; [vm_compute; reflexivity|]. split; [vm_compute; reflexivity|].
  split; [vm_compute; reflexivity|]. vm_compute. discriminate.
Qed.

(** C6, as the code has it: on a started session, resolving for a write a
    table that the database lacks, with a descriptor that does not allow
    creating it, raises [SqlAlchemyDbException] with the table's name in its
    message; the database is unchanged, the only call made being the lookup
    of the table.  A [write_record] fails in that way when the name is not
    cached on the manager, as is the case whenever the cached names are
    tables of the database. *)
Theorem C6_write_absent_table_fails `{Engine}
  (table_config : TableConfiguration.t) (record : Row) (st : State)
  (s : Session) :
  let name := TableConfiguration.name table_config in
  _session (self st) = Some s ->
  catalog (db st) !! name = None ->
  TableConfiguration.create_table_if_missing table_config = false ->
  exists st',
    _get_table name (create_table name table_config record) st =
      (st', Raise (SqlAlchemyDbException ("Failed to get table " ++ name))) /\
    db st' = db st /\
    self st' = self st /\
    trace st' = trace st ++ [EvHasTable name] /\
    (_name_to_table (self st) !! name = None ->
     write_record table_config record st =
       (st', Raise (SqlAlchemyDbException ("Failed to get table " ++ name)))) /\
    (cache_in_catalog st ->
     write_record table_config record st =
       (st', Raise (SqlAlchemyDbException ("Failed to get table " ++ name)))).
Proof.
  intros name Hs Hcat Hflag. exists (logged st [EvHasTable name]).
  split; [|repeat split].
  - unfold _get_table, bind.
    now rewrite (create_table_absent _ _ _ _ _ Hs Hcat Hflag).
  - intros Hcache. exact (write_record_absent _ _ _ _ Hs Hcat Hcache Hflag).
  - intros Hinv. apply (write_record_absent _ _ _ _ Hs Hcat); [|exact Hflag].
    exact (cache_in_catalog_absent _ _ Hinv Hcat).
Qed.

Lemma C6_witness :
  exists st',
    _get_table "students"
      (@create_table accepting_engine "students" (students_config false)
         jack3) started_state =
      (st', Raise (SqlAlchemyDbException "Failed to get table students")) /\
    db st' = db started_state /\
    self st' = self started_state /\
    trace st' = trace started_state ++ [EvHasTable "students"] /\
    @write_record accepting_engine (students_config false) jack3
       started_state =
      (st', Raise (SqlAlchemyDbException "Failed to get table students")).
Proof.
  destruct (@C6_write_absent_table_fails accepting_engine
              (students_config false) jack3 started_state
              (mkSession None false))
    as (st' & Hget & Hdb & Hself & Htrace & Hwrite & _);
    [reflexivity..|].
  exists st'. repeat split; try assumption. apply Hwrite. reflexivity.
Defined.

(** Against C6 as the specification words it: after a write whose custom
    definition made the table pupils under the name students, the database
    has no table students, and a write to students that may not create it
    goes through, on the cached table; and on a manager without a session
    the failure is an [AttributeError], which names no table. *)
Lemma C6_counterexample :
  (_session (self pupils_state) = Some (mkSession None false) /\
   catalog (db pupils_state) !! "students" = None /\
   TableConfiguration.create_table_if_missing (students_config false) =
     false /\
   snd (@write_record accepting_engine (students_config false) jack3
          pupils_state) = Ok tt /\
   committed
     (db (fst (@write_record accepting_engine (students_config false) jack3
                 pupils_state))) !! "pupils" = Some [jack3; jack3]) /\
  (catalog (db initial_state) !! "students" = None /\
   snd (@write_record accepting_engine (students_config false) jack3
          initial_state) = Raise AttributeError).
Proof. repeat split; vm_compute; reflexivity. Qed.

(** A read that returns has begun a transaction on the session, which it
    leaves in flight. *)
Lemma read_Ok_begins (name : string) (st st' : State) (s : Session)
  (rows : list Row) :
  _session (self st) = Some s ->
  read name st = (st', Ok rows) ->
  _session (self st') = Some (mkSession (Some (view s (db st))) (closed s)).
Proof.
  intros Hs. unfold read, _open_table_for_read, bind.
  pose proof (_open_table_same_session name (load_table name)
                (load_table_same_self _) st) as Hsession.
  pose proof (_open_table_same_db name (load_table name)
                (load_table_same_db _) st) as Hdb.
  destruct (_open_table name (load_table name) st)
    as [st1 [table|e]]; simpl in Hsession, Hdb; [|discriminate].
  unfold same_session in Hsession. unfold same_db in Hdb.
  rewrite Hs in Hsession.
  unfold _Table_records, session_query, bind, the_session, log, get_state,
    set_session, set_self, ret, raise, lift. simpl. rewrite Hsession. simpl.
  rewrite Hdb.
  destruct (catalog (db st) !! t_name (__table__ (_Table._Class table)));
    simpl; [|discriminate].
  destruct (map_result _ _); intros [= <- _]; reflexivity.
Qed.

(** C7, as the code has it: a read never changes the database and makes no
    call that writes; it leaves the session seeing the rows it saw and as
    open as it was, but not unchanged: a read that returns has begun a
    transaction, which it leaves in flight.  On a started session,
    resolving for a read a table that the database lacks raises
    [SqlAlchemyDbException] with the table's name in its message, and so
    does [read] when the name is not cached on the manager, as is the case
    whenever the cached names are tables of the database. *)
Theorem C7_read_absent_table_fails (name : string) (st : State) :
  (db (fst (read name st)) = db st /\
   same_view st (fst (read name st)) /\
   adds_events not_write_event st (fst (read name st))) /\
  (forall s,
     _session (self st) = Some s ->
     (forall st' rows,
        read name st = (st', Ok rows) ->
        _session (self st') =
          Some (mkSession (Some (view s (db st))) (closed s))) /\
     (catalog (db st) !! name = None ->
      _get_table name (load_table name) st =
        (logged st [EvHasTable name],
         Raise (SqlAlchemyDbException ("Failed to get table " ++ name))) /\
      (_name_to_table (self st) !! name = None ->
       read name st =
         (logged st [EvHasTable name],
          Raise (SqlAlchemyDbException ("Failed to get table " ++ name)))) /\
      (cache_in_catalog st ->
       read name st =
         (logged st [EvHasTable name],
          Raise (SqlAlchemyDbException ("Failed to get table " ++ name)))))).
Proof.
  split; [split; [|split]|].
  - apply read_same_db.
  - apply read_same_view.
  - apply read_reads.
  - intros s Hs. split.
    + intros st' rows. exact (read_Ok_begins name st st' s rows Hs).
    + intros Hcat. split; [|split].
      * unfold _get_table, bind. now rewrite load_table_eq, Hs, Hcat.
      * intros Hcache. exact (read_absent _ _ _ Hs Hcat Hcache).
      * intros Hinv. apply (read_absent _ _ _ Hs Hcat).
        exact (cache_in_catalog_absent _ _ Hinv Hcat).
Qed.

Lemma C7_witness :
  _get_table "students" (load_table "students") started_state =
    (logged started_state [EvHasTable "students"],
     Raise (SqlAlchemyDbException "Failed to get table students")) /\
  read "students" started_state =
    (logged started_state [EvHasTable "students"],
     Raise (SqlAlchemyDbException "Failed to get table students")) /\
  _session (self (fst (read "students" written_state))) =
    Some (mkSession (Some (committed (db written_state))) false).
Proof.
  destruct (proj2 (C7_read_absent_table_fails "students" started_state)
              (mkSession None false))
    as (_ & Habsent); [reflexivity|].
  destruct Habsent as (Hget & Hread & _); [reflexivity|].
  split; [exact Hget|]. split; [apply Hread; reflexivity|].
  destruct (proj2 (C7_read_absent_table_fails "students" written_state)
              (mkSession None false))
    as (Hbegins & _); [reflexivity|].
  apply (Hbegins _ [jack3]). vm_compute. reflexivity.
Defined.

(** Against C7 as the specification words it: after a write whose custom
    definition made the table pupils under the name students, the database
    has no table students, and a read of students returns the rows of
    pupils; on a manager without a session the failure is an
    [AttributeError]; and a read that returns does not leave the session as
    it was, a transaction having begun. *)
Lemma C7_counterexample :
  (_session (self pupils_state) = Some (mkSession None false) /\
   catalog (db pupils_state) !! "students" = None /\
   snd (read "students" pupils_state) =
     Ok [[("id", PyInt 3); ("name", PyStr "Jack3")]]) /\
  (catalog (db initial_state) !! "students" = None /\
   snd (read "students" initial_state) = Raise AttributeError) /\
  _session (self (fst (read "students" written_state))) <>
    _session (self written_state).
Proof.
  split; [repeat split; vm_compute; reflexivity|].
  split; [repeat split; vm_compute; reflexivity|].
  vm_compute. discriminate.
Qed.

(** C8, as the code has it: on a started session, resolving for a write a
    table that the database has, and that has a primary key, returns the
    class of the table as the database has it, the only calls made being
    its lookup and its reflection: the result is the same for every
    descriptor, whatever its create-if-missing flag, and for every sample
    record, which is not looked at.  For a table without primary key the
    class cannot be made and the resolution raises [ArgumentError], after
    the same two calls.  [_open_table_for_write] resolves in that way when
    the name is not cached on the manager; when it is, the cached handle is
    returned and the database is not looked at. *)
Theorem C8_write_existing_table `{Engine} (name : string)
  (table_config : TableConfiguration.t) (record : Row) (st : State)
  (s : Session) (columns : list Column) :
  let found := logged st [EvHasTable name; EvAutoload name] in
  let handle := _Table.__init__ (mkTableClass (Table name columns)) name in
  _session (self st) = Some s ->
  catalog (db st) !! name = Some columns ->
  (primary_key (Table name columns) <> [] ->
   create_table name table_config record st =
     (found, Ok (Some (mkTableClass (Table name columns)))) /\
   _get_table name (create_table name table_config record) st =
     (found, Ok handle) /\
   (TableConfiguration.name table_config = name ->
    _name_to_table (self st) !! name = None ->
    _open_table_for_write table_config record st =
      (cached found name handle, Ok handle))) /\
  (primary_key (Table name columns) = [] ->
   create_table name table_config record st = (found, Raise ArgumentError) /\
   _get_table name (create_table name table_config record) st =
     (found, Raise ArgumentError) /\
   (TableConfiguration.name table_config = name ->
    _name_to_table (self st) !! name = None ->
    _open_table_for_write table_config record st =
      (found, Raise ArgumentError))) /\
  (forall table,
     TableConfiguration.name table_config = name ->
     _name_to_table (self st) !! name = Some table ->
     _open_table_for_write table_config record st = (st, Ok table)).
Proof.
  intros found handle Hs Hcat.
  pose proof (create_table_present name table_config record st s columns
                Hs Hcat) as Hcreate.
  fold found in Hcreate.
  split; [|split].
  - intros Hkey. rewrite (create_table_class_Ok _ Hkey) in Hcreate.
    split; [exact Hcreate|]. split.
    + unfold _get_table, bind. now rewrite Hcreate.
    + intros <- Hcache. unfold _open_table_for_write.
      now rewrite _open_table_eq, Hcache, Hcreate.
  - intros Hkey. rewrite (create_table_class_Raise _ Hkey) in Hcreate.
    split; [exact Hcreate|]. split.
    + unfold _get_table, bind. now rewrite Hcreate.
    + intros <- Hcache. unfold _open_table_for_write.
      now rewrite _open_table_eq, Hcache, Hcreate.
  - intros table <- Hcache. unfold _open_table_for_write.
    now rewrite _open_table_eq, Hcache.
Qed.

Lemma C8_witness :
  (@create_table accepting_engine "students" (students_config false)
     [("unknown", PyNone)] second_manager_state =
     (logged second_manager_state
        [EvHasTable "students"; EvAutoload "students"],
      Ok (Some (_Table._Class students_table))) /\
   _get_table "students"
     (@create_table accepting_engine "students" (students_config false)
        [("unknown", PyNone)]) second_manager_state =
     (logged second_manager_state
        [EvHasTable "students"; EvAutoload "students"],
      Ok students_table) /\
   @_open_table_for_write accepting_engine (students_config false)
      [("unknown", PyNone)] second_manager_state =
     (cached
        (logged second_manager_state
           [EvHasTable "students"; EvAutoload "students"])
        "students" students_table,
      Ok students_table)) /\
  @_open_table_for_write accepting_engine keyless_config jack3 keyless_state =
    (logged keyless_state [EvHasTable "log"; EvAutoload "log"],
     Raise ArgumentError).
Proof.
  split.
  - destruct (@C8_write_existing_table accepting_engine "students"
                (students_config false) [("unknown", PyNone)]
                second_manager_state (mkSession None false)
                [mkColumn "id" Float true;
                 mkColumn "name" (String_ None) false;
                 mkColumn "age" Float false])
      as (Hkeyed & _ & _).
    + vm_compute. reflexivity.
    + vm_compute. reflexivity.
    + destruct Hkeyed as (Hcreate & Hget & Hopen);
        [vm_compute; discriminate|].
      split; [exact Hcreate|]. split; [exact Hget|].
      apply Hopen; vm_compute; reflexivity.
  - destruct (@C8_write_existing_table accepting_engine "log"
                keyless_config jack3 keyless_state (mkSession None false)
                keyless_columns)
      as (_ & Hkeyless & _).
    + reflexivity.
    + vm_compute. reflexivity.
    + destruct Hkeyless as (_ & _ & Hopen); [reflexivity|].
      apply Hopen; reflexivity.
Defined.

(** Against C8 as the specification words it: a write against a table
    that the database has, but that has no primary key, raises
    [ArgumentError] in place of returning a handle; a write against a
    table students that the database has, on a manager that has cached
    another table under that name, is given the cached handle, of the table
    pupils, and not that of the table of the database; and on a manager
    without a session the resolution raises [AttributeError]. *)
Lemma C8_counterexample :
  (_session (self keyless_state) = Some (mkSession None false) /\
   catalog (db keyless_state) !! "log" = Some keyless_columns /\
   snd (@_open_table_for_write accepting_engine keyless_config jack3
          keyless_state) = Raise ArgumentError /\
   snd (@write_record accepting_engine keyless_config jack3 keyless_state) =
     Raise ArgumentError) /\
  (_session (self shadowed_state) = Some (mkSession None false) /\
   catalog (db shadowed_state) !! "students" =
     Some (t_columns (_Table._sqlalchemy_table students_table)) /\
   snd (@_open_table_for_write accepting_engine (students_config false)
          jack3 shadowed_state) =
     Ok (_Table.__init__ (mkTableClass pupils_table) "students")) /\
  (catalog (db written_state) !! "students" =
     Some (t_columns (_Table._sqlalchemy_table students_table)) /\
   snd (@_open_table_for_write accepting_engine (students_config false)
          jack3
          (mkState (__init__ sqlite_source) (db written_state) [])) =
     Raise AttributeError).
Proof.
  split; [repeat split; vm_compute; reflexivity|].
  split; repeat split; vm_compute; reflexivity.
Qed.

(** C9: a resolution that fails, for a read or for a write, leaves the
    manager, and so its cache, as it was.  After a read of an absent table
    has failed, or a write of it that may not create it, a write of the
    same name that may create it does so: the table is made from the
    sample, when the engine accepts it, and cached. *)
Theorem C9_failed_resolution_not_cached `{Engine} (st : State) :
  (forall name st' e,
     _open_table_for_read name st = (st', Raise e) -> self st' = self st) /\
  (forall table_config record st' e,
     _open_table_for_write table_config record st = (st', Raise e) ->
     self st' = self st) /\
  (forall name s st1 table_config record columns,
     _session (self st) = Some s ->
     catalog (db st) !! name = None ->
     _name_to_table (self st) !! name = None ->
     (st1 = fst (read name st) \/
      exists failed_config failed_record,
        TableConfiguration.name failed_config = name /\
        TableConfiguration.create_table_if_missing failed_config = false /\
        st1 = fst (write_record failed_config failed_record st)) ->
     TableConfiguration.name table_config = name ->
     TableConfiguration.create_table_if_missing table_config = true ->
     TableConfiguration.define_table_f table_config = None ->
     _columns_from_sample_record record
       (TableConfiguration.primary_key_column_names table_config)
       (drivername (SourceConfiguration.url (_source (self st)))) =
       Ok columns ->
     ddl_ok (Table name columns) = true ->
     _name_to_table (self st1) = _name_to_table (self st) /\
     exists st2 table,
       _open_table_for_write table_config record st1 = (st2, Ok table) /\
       _Table._sqlalchemy_table table = Table name columns /\
       catalog (db st2) !! name = Some columns /\
       _name_to_table (self st2) !! name = Some table).
Proof.
  split; [|split].
  - intros name st' e. apply _open_table_Raise_same_self, load_table_same_self.
  - intros table_config record st' e.
    apply _open_table_Raise_same_self, create_table_same_self.
  - intros name s st1 table_config record columns Hs Hcat Hcache Hfailed
      Hname Hflag Hdef Hcols Hddl.
    assert (Hst1 : st1 = logged st [EvHasTable name]).
    { destruct Hfailed as [-> | (cfg0 & rec0 & Hname0 & Hflag0 & ->)].
      - now rewrite (read_absent _ _ _ Hs Hcat Hcache).
      - subst name.
        now rewrite (write_record_absent _ _ _ _ Hs Hcat Hcache Hflag0). }
    subst st1 name. split; [reflexivity|].
    eexists. eexists. split.
    + apply (_open_table_for_write_creates table_config record
               (logged st [EvHasTable (TableConfiguration.name table_config)])
               s columns); assumption.
    + split; [reflexivity|]. simpl. split; apply lookup_insert_eq.
Qed.

Lemma C9_witness :
  _name_to_table (self (fst (read "students" started_state))) =
    _name_to_table (self started_state) /\
  exists st2 table,
    @_open_table_for_write accepting_engine (students_config true) jack3
       (fst (read "students" started_state)) = (st2, Ok table) /\
    _Table._sqlalchemy_table table =
      Table "students"
        [mkColumn "id" Float true; mkColumn "name" (String_ None) false;
         mkColumn "age" Float false] /\
    catalog (db st2) !! "students" =
      Some [mkColumn "id" Float true; mkColumn "name" (String_ None) false;
            mkColumn "age" Float false] /\
    _name_to_table (self st2) !! "students" = Some table.
Proof.
  apply (proj2 (proj2 (@C9_failed_resolution_not_cached accepting_engine
                         started_state))
           "students" (mkSession None false) _ (students_config true) jack3);
    try reflexivity.
  left. reflexivity.
Defined.

(** ** The scenario of the test suite *)

Example infer_db_type_samples :
  map (fun val => infer_db_type val "mysql")
      [PyBool true; PyInt 3; PyFloat 3 (-1); PyDatetime 0; PyDate 0;
       PyStr "Jack3"; PyNone; PyObject "list" false true;
       PyObject "ndarray" true true] =
    [Boolean; Float; Float; DateTime; Date; String_ (Some 100%nat);
     String_ (Some 100%nat); String_ (Some 100%nat); String_ (Some 100%nat)].
Proof. reflexivity. Qed.

Example columns_of_jack3 :
  _columns_from_sample_record jack3 ["id"] "sqlite" =
    Ok [mkColumn "id" Float true; mkColumn "name" (String_ None) false;
        mkColumn "age" Float false].
Proof. reflexivity. Qed.

Example columns_of_jack3_without_key :
  _columns_from_sample_record jack3 [] "sqlite" =
    Ok [mkColumn "id_" Integer true; mkColumn "id" Float false;
        mkColumn "name" (String_ None) false; mkColumn "age" Float false].
Proof. reflexivity. Qed.

Example columns_of_jack3_missing_key :
  _columns_from_sample_record jack3 ["id"; "grade"] "sqlite" =
    Raise (KeyError "grade").
Proof. reflexivity. Qed.

(** The row written to a table made for it is read back, by the manager
    that wrote it and by another one. *)
Example write_then_read :
  snd (read "students" written_state) = Ok [jack3] /\
  snd (read "students" second_manager_state) = Ok [jack3].
Proof. split; vm_compute; reflexivity. Qed.

(** After a failed write the manager still refers to the closed session. *)
Example failed_write_keeps_session :
  _session
    (self (fst (@write_record rejecting_engine (students_config true) jack3
                  started_state))) = Some (mkSession None true) /\
  _session (self (fst (close_session started_state))) = None.
Proof. split; vm_compute; reflexivity. Qed.

(** * Further properties of the module *)

(** ** Without a session *)

Lemma load_table_no_session (name : string) (st : State) :
  _session (self st) = None ->
  load_table name st = (st, Raise AttributeError).
Proof. intros Hs. now rewrite load_table_eq, Hs. Qed.

Lemma read_no_session (name : string) (st : State) :
  _session (self st) = None ->
  read name st = (st, Raise AttributeError).
Proof.
  intros Hs. unfold read, bind, _open_table_for_read.
  rewrite _open_table_eq.
  destruct (_name_to_table (self st) !! name) as [table|].
  - unfold _Table_records, session_query, bind, the_session. now rewrite Hs.
  - now rewrite (load_table_no_session _ _ Hs).
Qed.

Lemma write_record_no_session `{Engine}
  (table_config : TableConfiguration.t) (record_dict : Row) (st : State) :
  _session (self st) = None ->
  write_record table_config record_dict st = (st, Raise AttributeError).
Proof.
  intros Hs. unfold write_record, bind, _open_table_for_write.
  rewrite _open_table_eq.
  destruct (_name_to_table (self st) !! TableConfiguration.name table_config)
    as [table|].
  - run_session.
    destruct (_get_create_insert_f (_source (self st)) table_config
                (_Table._sqlalchemy_table table) record_dict);
      simpl; now rewrite ?Hs.
  - unfold create_table, bind. now rewrite (load_table_no_session _ _ Hs).
Qed.

Lemma close_session_no_session (st : State) :
  _session (self st) = None ->
  close_session st = (st, Raise AttributeError).
Proof.
  intros Hs. unfold close_session, session_close, bind, the_session.
  now rewrite Hs.
Qed.

Lemma close_session_leaves_no_session (st : State) :
  _session (self (fst (close_session st))) = None.
Proof.
  destruct (_session (self st)) as [s|] eqn:Hs.
  - unfold close_session, session_close, the_session, set_session, bind,
      get_state, log, set_self.
    now rewrite Hs.
  - now rewrite (close_session_no_session _ Hs).
Qed.



(** After [close_session], whatever the state it was called in, the manager
    has no session, keeps its cache, and every [read] and [write_record]
    raises [AttributeError] until a session is started. *)
Theorem close_session_ends_use `{Engine} (st : State) :
  let st' := fst (close_session st) in
  _session (self st') = None /\
  _name_to_table (self st') = _name_to_table (self st) /\
  db st' = db st /\
  (forall table_name, read table_name st' = (st', Raise AttributeError)) /\
  (forall table_config record_dict,
     write_record table_config record_dict st' = (st', Raise AttributeError)).
Proof.
  intros st'. pose proof (close_session_leaves_no_session st) as Hs.
  fold st' in Hs. split; [exact Hs|]. split; [|split; [|split]].
  - apply close_session_same_cache.
  - apply close_session_same_db.
  - intros table_name. exact (read_no_session _ _ Hs).
  - intros table_config record_dict. exact (write_record_no_session _ _ _ Hs).
Qed.

(** ** Starting a session *)

(** [start_session] asks whether the database exists only when the source
    allows creating it, and creates it only when it is missing.  When
    neither call fails it returns: it leaves the tables, the rows and the
    cache as they are, and puts a new open session in place of the previous
    one, which it does not close.  When the question or the creation fails,
    the exception goes to the caller and the manager is left as it was,
    with the session it had, or none. *)
Theorem start_session_opens `{Engine} (st : State) :
  let url := SourceConfiguration.url (_source (self st)) in
  let create_if_missing :=
    SourceConfiguration.create_if_missing (_source (self st)) in
  (create_if_missing = false \/
   database_exists_ok url = true /\
   (db_exists (db st) = true \/ create_database_ok url = true) ->
   start_session st =
     (mkState
        (mkSqlAlchemyDB (_source (self st)) (Some (mkSession None false))
           (_name_to_table (self st)))
        (mkDatabase (db_exists (db st) || create_if_missing)
           (catalog (db st)) (committed (db st)))
        (trace st ++ start_session_events st),
      Ok tt)) /\
  (create_if_missing = true ->
   database_exists_ok url = false ->
   start_session st =
     (logged st [EvDatabaseExists], Raise (EngineError "database exists")))
  /\
  (create_if_missing = true ->
   database_exists_ok url = true ->
   db_exists (db st) = false ->
   create_database_ok url = false ->
   start_session st =
     (logged st [EvDatabaseExists; EvCreateDatabase],
      Raise (EngineError "create database"))) /\
  (In EvCreateDatabase (start_session_events st) <->
   create_if_missing = true /\ db_exists (db st) = false) /\
  ~ In EvClose (start_session_events st).
Proof.
  intros url create_if_missing. subst url create_if_missing.
  unfold start_session, start_session_events, logged, bind, get_state, log,
    set_db, set_self, ret, raise.
  destruct st as [[source session cache] [dbe cat rows] tr]. simpl.
  split; [|split; [|split; [|split]]].
  - intros [Hflag | [Hprobe Hcreate]].
    + rewrite Hflag. simpl. now rewrite app_nil_r, orb_false_r.
    + rewrite Hprobe.
      destruct (SourceConfiguration.create_if_missing source); simpl;
        [|now rewrite app_nil_r, orb_false_r].
      destruct dbe; simpl; [reflexivity|].
      destruct Hcreate as [Hexists | Hcreate]; [discriminate|].
      rewrite Hcreate. simpl. now rewrite <- app_assoc.
  - intros -> ->. reflexivity.
  - intros -> -> -> ->. simpl. now rewrite <- app_assoc.
  - destruct (SourceConfiguration.create_if_missing source); destruct dbe;
      simpl; intuition congruence.
  - destruct (SourceConfiguration.create_if_missing source); destruct dbe;
      simpl; intuition congruence.
Qed.

Lemma start_session_opens_witness :
  @start_session accepting_engine missing_database_state =
    (mkState
       (mkSqlAlchemyDB creating_source (Some (mkSession None false)) ∅)
       (mkDatabase true ∅ ∅) [EvDatabaseExists; EvCreateDatabase],
     Ok tt) /\
  @start_session unreachable_engine missing_database_state =
    (logged missing_database_state [EvDatabaseExists],
     Raise (EngineError "database exists")) /\
  @start_session read_only_engine missing_database_state =
    (logged missing_database_state [EvDatabaseExists; EvCreateDatabase],
     Raise (EngineError "create database")).
Proof.
  split; [|split].
  - apply (proj1 (@start_session_opens accepting_engine
                    missing_database_state)).
    right. split; [reflexivity|]. right. reflexivity.
  - apply (proj1 (proj2 (@start_session_opens unreachable_engine
                           missing_database_state))); reflexivity.
  - apply (proj1 (proj2 (proj2 (@start_session_opens read_only_engine
                                  missing_database_state)))); reflexivity.
Defined.

(** ** A write that goes through *)


(** A write to a table that is already cached, on a started session, whose
    statement is built, executed and committed without failure, makes
    exactly two calls, execute and commit: the rows the statement produced
    from those the session saw become the committed rows, the session is
    left open with no transaction in flight, and tables and cache are
    unchanged. *)
Theorem write_record_cached_commits `{Engine}
  (table_config : TableConfiguration.t) (record_dict : Row) (st : State)
  (s : Session) (table : _Table.t) (stmt : Stmt) (rows : Rows) :
  _session (self st) = Some s ->
  _name_to_table (self st) !! TableConfiguration.name table_config =
    Some table ->
  _get_create_insert_f (_source (self st)) table_config
    (_Table._sqlalchemy_table table) record_dict = Ok stmt ->
  run_stmt stmt (view s (db st)) = Ok rows ->
  commit_ok rows = true ->
  write_record table_config record_dict st =
    (mkState
       (mkSqlAlchemyDB (_source (self st)) (Some (mkSession None (closed s)))
          (_name_to_table (self st)))
       (mkDatabase (db_exists (db st)) (catalog (db st)) rows)
       (trace st ++ [EvExecute stmt; EvCommit]),
     Ok tt).
Proof.
  intros Hs Hhit Hstmt Hrun Hcommit.
  unfold write_record, bind, _open_table_for_write.
  rewrite _open_table_eq, Hhit. unfold get_state.
  exact (_Table_write_record_Ok _ _ _ _ _ _ _ Hs Hstmt Hrun Hcommit).
Qed.

Lemma write_record_cached_commits_witness :
  @write_record accepting_engine (students_config false) jack3 written_state =
    (mkState
       (mkSqlAlchemyDB sqlite_source (Some (mkSession None false))
          (_name_to_table (self written_state)))
       (mkDatabase true (catalog (db written_state))
          (<["students" := [jack3; jack3]]> (committed (db written_state))))
       (trace written_state ++
          [EvExecute
             (InsertValues (_Table._sqlalchemy_table students_table) jack3);
           EvCommit]),
     Ok tt).
Proof.
  apply (@write_record_cached_commits accepting_engine (students_config false)
           jack3 written_state (mkSession None false) students_table).
  - vm_compute. reflexivity.
  - vm_compute. reflexivity.
  - reflexivity.
  - vm_compute. reflexivity.
  - reflexivity.
Defined.

(** ** A write that fails *)

#[local] Instance same_rows_preorder : PreOrder same_rows.
Proof.
  split; [intros st; reflexivity|].
  intros a b c; unfold same_rows; congruence.
Qed.

Lemma same_db_same_rows (st st' : State) : same_db st st' -> same_rows st st'.
Proof. unfold same_db, same_rows. now intros ->. Qed.

Lemma create_tables_same_rows `{Engine} (collection : list SaTable) :
  keeps same_rows (create_tables collection).
Proof.
  induction collection as [|table rest IH]; intros st; [reflexivity|].
  rewrite create_tables_cons.
  destruct (catalog (db st) !! t_name table); [reflexivity|].
  destruct (ddl_ok table); [|reflexivity].
  etransitivity; [|apply IH]. reflexivity.
Qed.

Lemma create_all_same_rows `{Engine} (metadata : MetaData) :
  keeps same_rows (create_all metadata).
Proof.
  intros st. unfold create_all, bind. rewrite tables_to_create_eq.
  etransitivity; [|apply create_tables_same_rows]. reflexivity.
Qed.

Lemma load_table_same_rows (name : string) : keeps same_rows (load_table name).
Proof.
  eapply keeps_weaken; [apply same_db_same_rows | apply load_table_same_db].
Qed.

#[local] Hint Resolve load_table_same_rows create_all_same_rows : frame.

Lemma create_table_same_rows `{Engine} (name : string)
  (table_config : TableConfiguration.t) (record : Row) :
  keeps same_rows (create_table name table_config record).
Proof. unfold create_table. frame. Qed.

Lemma _Table_write_record_Raise_same_db `{Engine} (table : _Table.t)
  (create_insert_f : InsertF) (record_dict : Row) (st st' : State) (e : Exn) :
  _Table_write_record table create_insert_f record_dict st = (st', Raise e) ->
  db st' = db st.
Proof.
  destruct (_session (self st)) as [s|] eqn:Hs.
  - intros Hwrite.
    exact (proj2 (_Table_write_record_Raise _ _ _ _ _ _ _ Hs Hwrite)).
  - run_session.
    destruct (create_insert_f (_Table._sqlalchemy_table table) record_dict);
      simpl; rewrite ?Hs; simpl; intros [= <- _]; reflexivity.
Qed.

(** A [write_record] that fails, at whatever step and in whatever state,
    leaves the committed rows as they were: a failing row never touches the
    rows written before it. *)
Theorem write_record_Raise_keeps_rows `{Engine}
  (table_config : TableConfiguration.t) (record_dict : Row)
  (st st' : State) (e : Exn) :
  write_record table_config record_dict st = (st', Raise e) ->
  committed (db st') = committed (db st).
Proof.
  unfold write_record, bind, _open_table_for_write.
  pose proof (_open_table_keeps same_rows
                (TableConfiguration.name table_config)
                (create_table (TableConfiguration.name table_config)
                   table_config record_dict)
                (fun _ _ _ Hrows => Hrows) (fun st0 => eq_refl)
                (create_table_same_rows _ _ _) st) as Hopen.
  destruct (_open_table (TableConfiguration.name table_config)
              (create_table (TableConfiguration.name table_config)
                 table_config record_dict) st)
    as [st1 [table|e1]]; simpl in Hopen.
  - unfold get_state. intros Hwrite.
    rewrite (_Table_write_record_Raise_same_db _ _ _ _ _ _ Hwrite).
    exact Hopen.
  - intros [= <- _]. exact Hopen.
Qed.

Lemma write_record_Raise_keeps_rows_witness :
  committed
    (db (fst (@write_record rejecting_engine (students_config true) jack3
                written_state))) = committed (db written_state).
Proof.
  apply (@write_record_Raise_keeps_rows rejecting_engine
           (students_config true) jack3 written_state _
           (EngineError "integrity")).
  vm_compute. reflexivity.
Defined.

(** ** The rows a read returns *)

Lemma getattr_In (db_record : Row) (col : string) (v : PyVal) :
  getattr db_record col = Ok v -> In (col, v) db_record.
Proof.
  induction db_record as [|[k w] db_record IH]; simpl; [discriminate|].
  destruct (String.eqb k col) eqn:Heq; [|intros Hget; right; exact (IH Hget)].
  apply String.eqb_eq in Heq. intros [= ->]. left. now subst.
Qed.

Lemma getattr_missing (db_record : Row) (col : string) :
  ~ In col (keys db_record) -> getattr db_record col = Raise AttributeError.
Proof.
  induction db_record as [|[k w] db_record IH]; simpl; [reflexivity|].
  intros Hnot. destruct (String.eqb k col) eqn:Heq.
  - apply String.eqb_eq in Heq. exfalso. apply Hnot. now left.
  - apply IH. intros Hin. apply Hnot. now right.
Qed.

Lemma getattr_present (db_record : Row) (col : string) :
  In col (keys db_record) -> exists v, getattr db_record col = Ok v.
Proof.
  induction db_record as [|[k w] db_record IH]; simpl; [intros []|].
  destruct (String.eqb k col) eqn:Heq; [intros _; eexists; reflexivity|].
  intros [Hk | Hin]; [|exact (IH Hin)].
  subst k. now rewrite String.eqb_refl in Heq.
Qed.

Lemma getattr_NoDup (db_record : Row) (col : string) (v : PyVal) :
  List.NoDup (keys db_record) -> In (col, v) db_record ->
  getattr db_record col = Ok v.
Proof.
  induction db_record as [|[k w] db_record IH]; simpl; [intros _ []|].
  intros Hnodup Hin. apply List.NoDup_cons_iff in Hnodup as [Hfresh Hnodup].
  destruct Hin as [[= -> ->] | Hin].
  - now rewrite String.eqb_refl.
  - destruct (String.eqb k col) eqn:Heq; [|exact (IH Hnodup Hin)].
    apply String.eqb_eq in Heq. subst k. exfalso. apply Hfresh.
    apply in_map_iff. exists (col, v). split; [reflexivity | exact Hin].
Qed.

Lemma _from_db_record_cols_Ok (db_record : Row) :
  forall column_names row,
    _from_db_record_cols column_names db_record = Ok row ->
    keys row = column_names /\
    forall col v, In (col, v) row -> getattr db_record col = Ok v.
Proof.
  induction column_names as [|col rest IH]; simpl; intros row.
  - intros [= <-]. split; [reflexivity | intros col v []].
  - destruct (getattr db_record col) as [v|e] eqn:Hget; [|discriminate].
    destruct (_from_db_record_cols rest db_record) as [r|e]; [|discriminate].
    intros [= <-]. destruct (IH r eq_refl) as [Hkeys Hvals]. split.
    + simpl. now rewrite Hkeys.
    + intros c w [[= <- <-] | Hin]; [exact Hget | exact (Hvals _ _ Hin)].
Qed.

Lemma _from_db_record_cols_total (db_record : Row) :
  forall column_names,
    (forall col, In col column_names -> In col (keys db_record)) ->
    exists row, _from_db_record_cols column_names db_record = Ok row.
Proof.
  induction column_names as [|col rest IH]; simpl; intros Hin;
    [eexists; reflexivity|].
  destruct (getattr_present db_record col) as [v ->]; [apply Hin; now left|].
  destruct IH as [row ->]; [intros c Hc; apply Hin; now right|].
  eexists; reflexivity.
Qed.

Lemma _from_db_record_cols_missing (db_record : Row) :
  forall column_names col,
    In col column_names -> ~ In col (keys db_record) ->
    _from_db_record_cols column_names db_record = Raise AttributeError.
Proof.
  induction column_names as [|c rest IH]; simpl; intros col Hin Hnot;
    [destruct Hin|].
  destruct (getattr db_record c) as [v|e] eqn:Hget.
  - destruct Hin as [-> | Hin].
    + now rewrite (getattr_missing _ _ Hnot) in Hget.
    + now rewrite (IH col Hin Hnot).
  - destruct (in_dec string_dec c (keys db_record)) as [Hc | Hc].
    + destruct (getattr_present _ _ Hc) as [v Hv]. congruence.
    + rewrite (getattr_missing _ _ Hc) in Hget. congruence.
Qed.

Lemma _from_db_record_cols_id (db_record : Row) :
  List.NoDup (keys db_record) ->
  forall part, incl part db_record ->
    _from_db_record_cols (keys part) db_record = Ok part.
Proof.
  intros Hnodup. induction part as [|[k v] part IH]; simpl; intros Hincl;
    [reflexivity|].
  rewrite (getattr_NoDup db_record k v Hnodup) by (apply Hincl; now left).
  rewrite IH; [reflexivity|]. intros item Hitem. apply Hincl. now right.
Qed.

(** [_from_db_record] projects a stored record on the columns of the table,
    in their order: a returned row has exactly those keys, each with the
    value stored under it; it is returned whenever the record has every
    column, and [AttributeError] is raised when it lacks one; a record whose
    keys are the columns themselves comes back unchanged. *)
Theorem _from_db_record_projects (table : _Table.t) (db_record : Row) :
  (forall row,
     _from_db_record table db_record = Ok row ->
     keys row = _Table._column_names table /\
     forall col v, In (col, v) row -> In (col, v) db_record) /\
  ((forall col, In col (_Table._column_names table) ->
                In col (keys db_record)) ->
   exists row, _from_db_record table db_record = Ok row) /\
  (forall col,
     In col (_Table._column_names table) -> ~ In col (keys db_record) ->
     _from_db_record table db_record = Raise AttributeError) /\
  (List.NoDup (keys db_record) ->
   keys db_record = _Table._column_names table ->
   _from_db_record table db_record = Ok db_record).
Proof.
  unfold _from_db_record. split; [|split; [|split]].
  - intros row Hrow.
    destruct (_from_db_record_cols_Ok _ _ _ Hrow) as [Hkeys Hvals].
    split; [exact Hkeys|]. intros col v Hin. apply getattr_In, Hvals, Hin.
  - apply _from_db_record_cols_total.
  - apply _from_db_record_cols_missing.
  - intros Hnodup <-. apply _from_db_record_cols_id; [exact Hnodup|].
    intros item Hitem. exact Hitem.
Qed.

Lemma _from_db_record_projects_witness :
  (exists row,
     _from_db_record students_table (("grade", PyInt 5) :: jack3) = Ok row) /\
  _from_db_record students_table [("id", PyInt 3)] = Raise AttributeError /\
  _from_db_record students_table jack3 = Ok jack3.
Proof.
  pose proof (_from_db_record_projects students_table
                (("grade", PyInt 5) :: jack3)) as (_ & Htotal & _).
  pose proof (_from_db_record_projects students_table [("id", PyInt 3)])
    as (_ & _ & Hmissing & _).
  pose proof (_from_db_record_projects students_table jack3)
    as (_ & _ & _ & Hid).
  split; [|split].
  - apply Htotal. simpl. intuition.
  - apply (Hmissing "name"); simpl;
      [intuition | intros [H | []]; discriminate H].
  - apply Hid; [|reflexivity].
    simpl. repeat constructor; simpl; intuition discriminate.
Defined.

Lemma map_result_Ok {A B} (f : A -> result B) :
  forall l ys, map_result f l = Ok ys -> Forall2 (fun x y => f x = Ok y) l ys.
Proof.
  induction l as [|x l IH]; simpl; intros ys.
  - intros [= <-]. constructor.
  - destruct (f x) as [y|e] eqn:Hfx; [|discriminate].
    destruct (map_result f l) as [ys'|e]; [|discriminate].
    intros [= <-]. constructor; [exact Hfx | apply IH; reflexivity].
Qed.

Lemma _Table_records_Ok (table : _Table.t) (st st' : State) (rows : list Row) :
  _Table_records table st = (st', Ok rows) ->
  exists s db_records,
    _session (self st) = Some s /\
    db_records =
      default [] (view s (db st) !! t_name (__table__ (_Table._Class table))) /\
    Forall2 (fun db_record row => _from_db_record table db_record = Ok row)
            db_records rows.
Proof.
  unfold _Table_records, session_query, bind, the_session, log, get_state,
    ret, raise, lift.
  destruct (_session (self st)) as [s|]; [|discriminate]. simpl.
  destruct (catalog (db st) !! t_name (__table__ (_Table._Class table)));
    [|discriminate].
  intros [= _ Hrows]. exists s. eexists. split; [reflexivity|].
  split; [reflexivity|]. apply map_result_Ok. exact Hrows.
Qed.

(** A [read] that returns gives one row for each record the session sees in
    the table, in their order, every row having as its keys the column names
    of the table handle, which is then in the cache under that name. *)
Theorem read_rows_have_table_columns (table_name : string) (st st' : State)
  (rows : list Row) :
  read table_name st = (st', Ok rows) ->
  exists table s db_records,
    _name_to_table (self st') !! table_name = Some table /\
    _session (self st) = Some s /\
    db_records =
      default [] (view s (db st) !! t_name (__table__ (_Table._Class table))) /\
    List.length rows = List.length db_records /\
    Forall (fun row => keys row = _Table._column_names table) rows.
Proof.
  unfold read, bind.
  pose proof (_open_table_same_db table_name (load_table table_name)
                (load_table_same_db _) st) as Hdb.
  pose proof (_open_table_same_session table_name (load_table table_name)
                (load_table_same_self _) st) as Hsession.
  fold (_open_table_for_read table_name) in Hdb, Hsession.
  destruct (_open_table_for_read table_name st) as [st1 [table|e]] eqn:Hopen;
    [|discriminate].
  simpl in Hdb, Hsession. unfold same_db in Hdb.
  unfold same_session in Hsession. intros Hrecords.
  apply _open_table_Ok_cached in Hopen.
  pose proof (_Table_records_same_cache table st1) as [Hcache _].
  rewrite Hrecords in Hcache. simpl in Hcache.
  destruct (_Table_records_Ok _ _ _ _ Hrecords)
    as (s & db_records & Hs & Hstored & Hrows).
  exists table, s, db_records. rewrite Hcache.
  split; [exact Hopen|]. rewrite <- Hsession, <- Hdb.
  split; [exact Hs|]. split; [exact Hstored|]. clear Hstored. split.
  - symmetry. exact (List.Forall2_length Hrows).
  - clear Hrecords.
    induction Hrows as [|db_record row l l' Hrow _ IH]; [constructor|].
    constructor; [|exact IH]. unfold _from_db_record in Hrow.
    exact (proj1 (_from_db_record_cols_Ok _ _ _ Hrow)).
Qed.

Lemma read_rows_have_table_columns_witness :
  exists table s db_records,
    _name_to_table (self (fst (read "students" second_manager_state)))
      !! "students" = Some table /\
    _session (self second_manager_state) = Some s /\
    db_records =
      default []
        (view s (db second_manager_state)
           !! t_name (__table__ (_Table._Class table))) /\
    List.length [jack3] = List.length db_records /\
    Forall (fun row => keys row = _Table._column_names table) [jack3].
Proof.
  apply (read_rows_have_table_columns "students" second_manager_state).
  vm_compute. reflexivity.
Defined.

(** ** The names of the columns made from a sample *)

Lemma primary_key_columns_names (record : Row) (drivername : string)
  (names : list string) (columns : list Column) :
  primary_key_columns_of record names drivername = Ok columns ->
  map c_name columns = names /\
  List.filter (fun c => c_primary_key c) columns = columns /\
  forall col, In col names -> In col (keys record).
Proof.
  intros Hpk. apply primary_key_columns_of_Ok in Hpk.
  induction Hpk as [|col c names columns (v & Hget & ->) _ IH]; simpl.
  - repeat split. intros col [].
  - destruct IH as (Hnames & Hfilter & Hkeys).
    rewrite Hnames, Hfilter. repeat split.
    intros c [<- | Hin]; [|exact (Hkeys _ Hin)].
    apply getitem_In in Hget. apply in_map_iff.
    exists (col, v). split; [reflexivity | exact Hget].
Qed.

Lemma ordinary_columns_names (drivername : string) (items : Row) :
  map c_name (map (ordinary_column drivername) items) = keys items /\
  List.filter (fun c => c_primary_key c)
    (map (ordinary_column drivername) items) = [].
Proof.
  induction items as [|[k v] items [IHnames IHfilter]]; simpl;
    [split; reflexivity|].
  now rewrite IHnames, IHfilter.
Qed.

Lemma keys_filter (names : list string) (record : Row) :
  keys (List.filter (fun item => negb (list_in (fst item) names)) record) =
  List.filter (fun k => negb (list_in k names)) (keys record).
Proof.
  induction record as [|[k v] record IH]; simpl; [reflexivity|].
  destruct (negb (list_in k names)); simpl; now rewrite IH.
Qed.

(** The column names of a table made from a sample, as a function of the
    sample and of the primary-key names. *)
Lemma columns_names (record : Row) (names : list string)
  (drivername : string) (columns : list Column) :
  _columns_from_sample_record record names drivername = Ok columns ->
  (names <> [] /\
   map c_name columns =
     names ++ List.filter (fun k => negb (list_in k names)) (keys record) /\
   map c_name (List.filter (fun c => c_primary_key c) columns) = names /\
   forall col, In col names -> In col (keys record)) \/
  (names = [] /\
   exists n,
     map c_name columns = ("id" ++ underscores n)%string :: keys record /\
     map c_name (List.filter (fun c => c_primary_key c) columns) =
       [("id" ++ underscores n)%string] /\
     ~ In ("id" ++ underscores n)%string (keys record)).
Proof.
  destruct names as [|col names].
  - intros Hcols. right. split; [reflexivity|].
    destruct (columns_with_synthetic_key record drivername)
      as (n & Heq & Hfree & _).
    rewrite Heq in Hcols. injection Hcols as <-. exists n.
    destruct (ordinary_columns_names drivername record) as [Hnames Hfilter].
    simpl. rewrite Hnames, Hfilter. repeat split.
    rewrite <- list_in_In. now rewrite Hfree.
  - intros Hcols. left. split; [discriminate|].
    remember (col :: names) as pks eqn:Hpks.
    rewrite columns_with_primary_key in Hcols by (subst pks; discriminate).
    clear Hpks.
    destruct (primary_key_columns_of record pks drivername)
      as [pk_cols|e] eqn:Hpk; [|discriminate].
    injection Hcols as <-.
    destruct (primary_key_columns_names _ _ _ _ Hpk)
      as (Hnames & Hfilter & Hkeys).
    destruct (ordinary_columns_names drivername
                (List.filter (fun item => negb (list_in (fst item) pks))
                   record)) as [Honames Hofilter].
    rewrite List.filter_app, Hfilter, Hofilter, app_nil_r, map_app, Hnames,
      Honames, keys_filter.
    repeat split. exact Hkeys.
Qed.

(** A sample whose keys are distinct, with distinct primary-key names,
    gives columns with distinct names: with primary-key names, the keys of
    the sample in another order, each key being one column; with none, the
    keys of the sample after a name that is none of them. *)
Theorem created_columns_cover_sample (record : Row)
  (primary_key_column_names : list string) (drivername : string)
  (columns : list Column) :
  List.NoDup (keys record) ->
  List.NoDup primary_key_column_names ->
  _columns_from_sample_record record primary_key_column_names drivername =
    Ok columns ->
  List.NoDup (map c_name columns) /\
  (primary_key_column_names <> [] ->
   Permutation (map c_name columns) (keys record)) /\
  (primary_key_column_names = [] ->
   exists pri_col_name,
     map c_name columns = pri_col_name :: keys record /\
     ~ In pri_col_name (keys record)).
Proof.
  intros Hkeys Hpks Hcols.
  destruct (columns_names _ _ _ _ Hcols)
    as [(Hne & Hnames & _ & Hincl) | (-> & n & Hnames & _ & Hfree)].
  - assert (Hnodup : List.NoDup (map c_name columns)).
    { rewrite Hnames. apply List.NoDup_app;
        [exact Hpks | apply List.NoDup_filter, Hkeys |].
      intros k Hk Hfiltered. apply List.filter_In in Hfiltered as [_ Hout].
      apply list_in_In in Hk. now rewrite Hk in Hout. }
    split; [exact Hnodup|]. split; [|congruence].
    intros _.
    apply Permutation.NoDup_Permutation; [exact Hnodup | exact Hkeys |].
    intros k. rewrite Hnames, in_app_iff, List.filter_In. split.
    + intros [Hk | [Hk _]]; [exact (Hincl _ Hk) | exact Hk].
    + intros Hk.
      destruct (list_in k primary_key_column_names) eqn:Hin.
      * left. now apply list_in_In.
      * right. split; [exact Hk | reflexivity].
  - rewrite Hnames. split; [|split; [congruence|]].
    + constructor; assumption.
    + intros _. eexists. split; [reflexivity | exact Hfree].
Qed.

Lemma created_columns_cover_sample_witness :
  List.NoDup (map c_name
           [mkColumn "age" Float true; mkColumn "id" Float false;
            mkColumn "name" (String_ None) false]) /\
  Permutation
    (map c_name
       [mkColumn "age" Float true; mkColumn "id" Float false;
        mkColumn "name" (String_ None) false])
    (keys jack3).
Proof.
  destruct (created_columns_cover_sample jack3 ["age"] "sqlite"
              [mkColumn "age" Float true; mkColumn "id" Float false;
               mkColumn "name" (String_ None) false])
    as (Hnodup & Hperm & _).
  - simpl. repeat constructor; simpl; intuition discriminate.
  - repeat constructor. simpl. tauto.
  - reflexivity.
  - split; [exact Hnodup | apply Hperm; discriminate].
Defined.

(** The PostgreSQL upsert built for a table made from a sample, from a
    record that has items, names as its conflict target the configured
    primary-key columns and sets every item of the record; when no primary
    key is configured the target is the synthetic column alone, which the
    record never supplies.  From a record without items no statement is
    built: the update clause has nothing to set and [ValueError] is
    raised. *)
Theorem create_upsert_postgres_conflict_target (name : string) (record : Row)
  (primary_key_column_names : list string) (drivername : string)
  (columns : list Column) :
  _columns_from_sample_record record primary_key_column_names drivername =
    Ok columns ->
  (record = [] ->
   create_upsert_postgres (Table name columns) record = Raise ValueError) /\
  (record <> [] ->
   exists index_elements,
     create_upsert_postgres (Table name columns) record =
       Ok (InsertOnConflictDoUpdate (Table name columns) record
             index_elements record) /\
     (primary_key_column_names <> [] ->
      map c_name index_elements = primary_key_column_names) /\
     (primary_key_column_names = [] ->
      exists pri_col_name,
        map c_name index_elements = [pri_col_name] /\
        ~ In pri_col_name (keys record))).
Proof.
  intros Hcols. split; [intros ->; reflexivity|].
  intros Hitems. exists (primary_key (Table name columns)).
  split; [destruct record; [congruence | reflexivity]|].
  unfold primary_key. simpl.
  destruct (columns_names _ _ _ _ Hcols)
    as [(Hne & _ & Hpk & _) | (-> & n & _ & Hpk & Hfree)].
  - split; [intros _; exact Hpk | congruence].
  - split; [congruence|]. intros _. eexists. split; [exact Hpk | exact Hfree].
Qed.

Lemma create_upsert_postgres_conflict_target_witness :
  (exists index_elements,
     create_upsert_postgres (_Table._sqlalchemy_table students_table) jack3 =
       Ok (InsertOnConflictDoUpdate (_Table._sqlalchemy_table students_table)
             jack3 index_elements jack3) /\
     map c_name index_elements = ["id"]) /\
  create_upsert_postgres (Table "students" [mkColumn "id" Integer true]) [] =
    Raise ValueError.
Proof.
  split.
  - destruct (create_upsert_postgres_conflict_target "students" jack3 ["id"]
                "sqlite"
                [mkColumn "id" Float true;
                 mkColumn "name" (String_ None) false;
                 mkColumn "age" Float false])
      as (_ & Hbuilt); [reflexivity|].
    destruct Hbuilt as (index_elements & Hstmt & Hnames & _);
      [discriminate|].
    exists index_elements. split; [exact Hstmt | apply Hnames; discriminate].
  - apply (create_upsert_postgres_conflict_target "students" [] [] "sqlite"
             [mkColumn "id" Integer true]); reflexivity.
Defined.

(** ** A table that cannot be made *)

Lemma getitem_Raise (record : Row) (col : string) (e : Exn) :
  getitem record col = Raise e ->
  e = KeyError col /\ ~ In col (keys record).
Proof.
  induction record as [|[k v] record IH]; simpl.
  - intros [= <-]. split; [reflexivity | intros []].
  - destruct (String.eqb k col) eqn:Heq; [discriminate|].
    intros Hget. destruct (IH Hget) as [-> Hnot]. split; [reflexivity|].
    intros [Hk | Hin]; [|exact (Hnot Hin)].
    subst k. now rewrite String.eqb_refl in Heq.
Qed.

Lemma primary_key_columns_of_Raise (record : Row) (drivername : string) :
  forall names e,
    primary_key_columns_of record names drivername = Raise e ->
    exists missing,
      e = KeyError missing /\ In missing names /\
      ~ In missing (keys record).
Proof.
  induction names as [|col names IH]; simpl; intros e; [discriminate|].
  destruct (getitem record col) as [v|e0] eqn:Hget.
  - destruct (primary_key_columns_of record names drivername) as [cols|e1];
      [discriminate|].
    intros [= <-]. destruct (IH e1 eq_refl) as (missing & -> & Hin & Hnot).
    exists missing. repeat split; [now right | exact Hnot].
  - intros [= <-]. destruct (getitem_Raise _ _ _ Hget) as [-> Hnot].
    exists col. repeat split; [now left | exact Hnot].
Qed.

Lemma create_table_default `{Engine} (name : string)
  (table_config : TableConfiguration.t) (record : Row) (st : State)
  (s : Session) :
  _session (self st) = Some s ->
  catalog (db st) !! name = None ->
  TableConfiguration.create_table_if_missing table_config = true ->
  TableConfiguration.define_table_f table_config = None ->
  create_table name table_config record st =
    match _columns_from_sample_record record
            (TableConfiguration.primary_key_column_names table_config)
            (drivername (SourceConfiguration.url (_source (self st)))) with
    | Raise e => (logged st [EvHasTable name], Raise e)
    | Ok columns =>
        if ddl_ok (Table name columns) then
          (created st (Table name columns),
           Ok (Some (mkTableClass (Table name columns))))
        else
          (logged st [EvHasTable name; EvHasTable name;
                      EvCreateTable (Table name columns)],
           Raise (EngineError "create table"))
    end.
Proof.
  intros Hs Hcat Hflag Hdef. unfold create_table, bind.
  rewrite load_table_eq, Hs, Hcat, Hflag, Hdef.
  unfold get_state, lift, _get_default_define_f. cbv beta iota.
  cbn [self logged].
  destruct (_columns_from_sample_record record
              (TableConfiguration.primary_key_column_names table_config)
              (drivername (SourceConfiguration.url (_source (self st)))))
    as [columns|e] eqn:Hcols; [|reflexivity].
  cbn [fst snd app].
  rewrite (proj2 (sample_columns_have_key _ _ _ _ name Hcols)).
  rewrite create_all_single. cbn [db logged catalog t_name].
  rewrite Hcat.
  destruct (ddl_ok (Table name columns)); unfold created, logged, ret; cbn;
    rewrite <- !app_assoc; reflexivity.
Qed.

(** A write that is to create its table with a primary-key name that is not
    a key of the sample raises [KeyError] for such a name before anything is
    created: the table has only been looked up, and database, session and
    cache are unchanged. *)
Theorem write_record_missing_primary_key `{Engine}
  (table_config : TableConfiguration.t) (record : Row) (st : State)
  (s : Session) (col : string) :
  let name := TableConfiguration.name table_config in
  _session (self st) = Some s ->
  catalog (db st) !! name = None ->
  _name_to_table (self st) !! name = None ->
  TableConfiguration.create_table_if_missing table_config = true ->
  TableConfiguration.define_table_f table_config = None ->
  In col (TableConfiguration.primary_key_column_names table_config) ->
  ~ In col (keys record) ->
  exists missing,
    In missing (TableConfiguration.primary_key_column_names table_config) /\
    ~ In missing (keys record) /\
    write_record table_config record st =
      (logged st [EvHasTable name], Raise (KeyError missing)).
Proof.
  intros name Hs Hcat Hcache Hflag Hdef Hin Hnot.
  destruct (columns_missing_primary_key record _
              (drivername (SourceConfiguration.url (_source (self st))))
              col Hin Hnot) as [missing Hcols].
  assert (Hmissing :
            In missing
               (TableConfiguration.primary_key_column_names table_config) /\
            ~ In missing (keys record)).
  { rewrite columns_with_primary_key in Hcols
      by (intros Hnil; rewrite Hnil in Hin; destruct Hin).
    destruct (primary_key_columns_of record
                (TableConfiguration.primary_key_column_names table_config)
                (drivername (SourceConfiguration.url (_source (self st)))))
      as [cols|e] eqn:Hpk; [discriminate|].
    injection Hcols as ->.
    destruct (primary_key_columns_of_Raise _ _ _ _ Hpk)
      as (m & [= <-] & Hm & Hmnot).
    split; assumption. }
  exists missing. destruct Hmissing as [Hm Hmnot].
  split; [exact Hm|]. split; [exact Hmnot|].
  unfold write_record, bind, _open_table_for_write. fold name.
  rewrite _open_table_eq, Hcache.
  rewrite (create_table_default name _ _ _ _ Hs Hcat Hflag Hdef), Hcols.
  reflexivity.
Qed.

Lemma write_record_missing_primary_key_witness :
  exists missing,
    In missing ["id"; "grade"] /\
    ~ In missing (keys jack3) /\
    @write_record accepting_engine
       (TableConfiguration.make "students" None true ["id"; "grade"] None)
       jack3 started_state =
      (logged started_state [EvHasTable "students"],
       Raise (KeyError missing)).
Proof.
  apply (@write_record_missing_primary_key accepting_engine
           (TableConfiguration.make "students" None true ["id"; "grade"] None)
           jack3 started_state (mkSession None false) "grade");
    try reflexivity.
  - simpl. tauto.
  - simpl. intuition discriminate.
Defined.

(** A write whose table the engine refuses to create raises the engine's
    error after the lookups and the one creation attempt: no table is made
    and none is cached, and the session is neither rolled back nor
    closed. *)
Theorem write_record_rejected_creation `{Engine}
  (table_config : TableConfiguration.t) (record : Row) (st : State)
  (s : Session) (columns : list Column) :
  let name := TableConfiguration.name table_config in
  _session (self st) = Some s ->
  catalog (db st) !! name = None ->
  _name_to_table (self st) !! name = None ->
  TableConfiguration.create_table_if_missing table_config = true ->
  TableConfiguration.define_table_f table_config = None ->
  _columns_from_sample_record record
    (TableConfiguration.primary_key_column_names table_config)
    (drivername (SourceConfiguration.url (_source (self st)))) = Ok columns ->
  ddl_ok (Table name columns) = false ->
  write_record table_config record st =
    (logged st [EvHasTable name; EvHasTable name;
                EvCreateTable (Table name columns)],
     Raise (EngineError "create table")).
Proof.
  intros name Hs Hcat Hcache Hflag Hdef Hcols Hddl.
  unfold write_record, bind, _open_table_for_write. fold name.
  rewrite _open_table_eq, Hcache.
  rewrite (create_table_default name _ _ _ _ Hs Hcat Hflag Hdef), Hcols, Hddl.
  reflexivity.
Qed.

Lemma write_record_rejected_creation_witness :
  @write_record refusing_engine (students_config true) jack3 started_state =
    (logged started_state
       [EvHasTable "students"; EvHasTable "students";
        EvCreateTable (_Table._sqlalchemy_table students_table)],
     Raise (EngineError "create table")).
Proof.
  apply (@write_record_rejected_creation refusing_engine
           (students_config true) jack3 started_state
           (mkSession None false)); reflexivity.
Defined.

(** ** A table defined by the caller *)

Lemma create_table_custom `{Engine} (name : string)
  (table_config : TableConfiguration.t) (f : DefineTableF)
  (record record' : Row) (st : State) :
  TableConfiguration.define_table_f table_config = Some f ->
  create_table name table_config record st =
  create_table name table_config record' st.
Proof.
  intros Hdef. unfold create_table, bind.
  destruct (load_table name st) as [st1 [[cls|]|e]]; try reflexivity.
  destruct (TableConfiguration.create_table_if_missing table_config);
    [|reflexivity].
  unfold get_state. now rewrite Hdef.
Qed.

(** With a table definition on the descriptor, the sample record plays no
    part in resolving the table: any two records give the same handle and
    the same state, whether the table exists, is created, or cannot be. *)
Theorem custom_definition_ignores_sample `{Engine}
  (table_config : TableConfiguration.t) (f : DefineTableF)
  (record record' : Row) (st : State) :
  TableConfiguration.define_table_f table_config = Some f ->
  _open_table_for_write table_config record st =
  _open_table_for_write table_config record' st.
Proof.
  intros Hdef. unfold _open_table_for_write.
  rewrite !_open_table_eq.
  now rewrite (create_table_custom _ _ f record record' st Hdef).
Qed.

Lemma custom_definition_ignores_sample_witness :
  @_open_table_for_write accepting_engine pupils_config jack3 started_state =
  @_open_table_for_write accepting_engine pupils_config [] started_state.
Proof.
  apply (@custom_definition_ignores_sample accepting_engine pupils_config
           (fun metadata => Ok (pupils_table, metadata ++ [pupils_table]))).
  reflexivity.
Defined.

(** When the caller's definition gives a table under another name than the
    descriptor's, that table is the one created.  When it has a primary key
    its handle is cached under the descriptor's name, of which the database
    still has no table.  When it has none, the table is created all the
    same, then [ArgumentError] is raised for want of a class: nothing is
    cached, and the table stays in the database. *)
Theorem custom_definition_under_other_name `{Engine}
  (table_config : TableConfiguration.t) (f : DefineTableF) (record : Row)
  (st : State) (s : Session) (table : SaTable) :
  let name := TableConfiguration.name table_config in
  let handle := _Table.__init__ (mkTableClass table) name in
  _session (self st) = Some s ->
  catalog (db st) !! name = None ->
  _name_to_table (self st) !! name = None ->
  TableConfiguration.create_table_if_missing table_config = true ->
  TableConfiguration.define_table_f table_config = Some f ->
  f [] = Ok (table, [table]) ->
  t_name table <> name ->
  catalog (db st) !! t_name table = None ->
  ddl_ok table = true ->
  (primary_key table <> [] ->
   exists st',
     _open_table_for_write table_config record st = (st', Ok handle) /\
     _name_to_table (self st') !! name = Some handle /\
     _Table._sqlalchemy_table handle = table /\
     catalog (db st') !! t_name table = Some (t_columns table) /\
     catalog (db st') !! name = None /\
     ~ cache_in_catalog st') /\
  (primary_key table = [] ->
   exists st',
     _open_table_for_write table_config record st =
       (st', Raise ArgumentError) /\
     self st' = self st /\
     catalog (db st') !! t_name table = Some (t_columns table) /\
     catalog (db st') !! name = None).
Proof.
  intros name handle Hs Hcat Hcache Hflag Hdef Hf Hne Hfree Hddl.
  assert (Hstill : <[t_name table := t_columns table]> (catalog (db st))
                     !! name = None).
  { now rewrite lookup_insert_ne. }
  set (st1 := mkState (self st)
                (mkDatabase (db_exists (db st))
                   (<[t_name table := t_columns table]> (catalog (db st)))
                   (committed (db st)))
                (trace st ++ [EvHasTable name; EvHasTable (t_name table);
                              EvCreateTable table])).
  assert (Hopen :
            _open_table_for_write table_config record st =
              match create_table_class table with
              | Ok table_class =>
                  (cached st1 name (_Table.__init__ table_class name),
                   Ok (_Table.__init__ table_class name))
              | Raise e => (st1, Raise e)
              end).
  { unfold _open_table_for_write. fold name. rewrite _open_table_eq, Hcache.
    unfold create_table, bind.
    rewrite load_table_eq, Hs, Hcat, Hflag, Hdef. unfold get_state, lift.
    rewrite Hf. cbn [fst snd]. rewrite create_all_single.
    cbn [db logged catalog]. rewrite Hfree, Hddl.
    unfold logged. cbn [self db trace db_exists committed catalog].
    rewrite <- app_assoc. cbn [app]. fold st1.
    destruct (create_table_class table); reflexivity. }
  split; intros Hkey.
  - rewrite (create_table_class_Ok _ Hkey) in Hopen. rewrite Hopen.
    eexists. split; [reflexivity|]. cbn.
    split; [apply lookup_insert_eq|]. split; [reflexivity|].
    split; [apply lookup_insert_eq|]. split; [exact Hstill|].
    intros Hinv. destruct (Hinv name) as [columns Hcolumns].
    + cbn. rewrite lookup_insert_eq. eauto.
    + cbn in Hcolumns. congruence.
  - rewrite (create_table_class_Raise _ Hkey) in Hopen. rewrite Hopen.
    eexists. split; [reflexivity|]. cbn. split; [reflexivity|].
    split; [apply lookup_insert_eq | exact Hstill].
Qed.

Lemma custom_definition_under_other_name_witness :
  (exists st',
     @_open_table_for_write accepting_engine pupils_config jack3
        started_state =
       (st', Ok (_Table.__init__ (mkTableClass pupils_table) "students")) /\
     _name_to_table (self st') !! "students" =
       Some (_Table.__init__ (mkTableClass pupils_table) "students") /\
     _Table._sqlalchemy_table
       (_Table.__init__ (mkTableClass pupils_table) "students") =
       pupils_table /\
     catalog (db st') !! "pupils" = Some (t_columns pupils_table) /\
     catalog (db st') !! "students" = None /\
     ~ cache_in_catalog st') /\
  (exists st',
     @_open_table_for_write accepting_engine journal_config jack3
        started_state = (st', Raise ArgumentError) /\
     self st' = self started_state /\
     catalog (db st') !! "log" = Some keyless_columns /\
     catalog (db st') !! "journal" = None).
Proof.
  split.
  - apply (@custom_definition_under_other_name accepting_engine pupils_config
             (fun metadata => Ok (pupils_table, metadata ++ [pupils_table]))
             jack3 started_state (mkSession None false) pupils_table);
      try reflexivity; discriminate.
  - apply (@custom_definition_under_other_name accepting_engine journal_config
             (fun metadata =>
                Ok (Table "log" keyless_columns,
                    metadata ++ [Table "log" keyless_columns]))
             jack3 started_state (mkSession None false)
             (Table "log" keyless_columns));
      try reflexivity; discriminate.
Defined.

(** ** A descriptor for a cached table *)

(** Once a table is cached, a write looks at two things of its descriptor
    only, the name and the statement builder: descriptors that agree on
    these give the same write, whatever their primary-key names, table
    definition and create-if-missing flag. *)
Theorem cached_table_ignores_descriptor `{Engine}
  (table_config table_config' : TableConfiguration.t) (record_dict : Row)
  (st : State) (table : _Table.t) :
  _name_to_table (self st) !! TableConfiguration.name table_config =
    Some table ->
  TableConfiguration.name table_config' =
    TableConfiguration.name table_config ->
  TableConfiguration.create_insert_f table_config' =
    TableConfiguration.create_insert_f table_config ->
  write_record table_config' record_dict st =
  write_record table_config record_dict st.
Proof.
  intros Hhit Hname Hbuilder. unfold write_record, bind, _open_table_for_write.
  rewrite !_open_table_eq, Hname, Hhit. unfold get_state.
  unfold _get_create_insert_f. now rewrite Hbuilder.
Qed.

Lemma cached_table_ignores_descriptor_witness :
  @write_record accepting_engine
     (TableConfiguration.make "students" None false ["name"; "age"] None)
     jack3 written_state =
  @write_record accepting_engine (students_config true) jack3 written_state.
Proof.
  apply (@cached_table_ignores_descriptor accepting_engine
           (students_config true)
           (TableConfiguration.make "students" None false ["name"; "age"] None)
           jack3 written_state students_table).
  - vm_compute. reflexivity.
  - reflexivity.
  - reflexivity.
Defined.

(** ** What a sequence of calls keeps *)

Lemma load_table_catalog_grows (name : string) :
  keeps catalog_grows (load_table name).
Proof.
  eapply keeps_weaken; [|apply load_table_same_db].
  intros st st' Hdb. apply same_catalog_catalog_grows.
  unfold same_db in Hdb. now rewrite Hdb.
Qed.

#[local] Hint Resolve load_table_catalog_grows create_all_catalog_grows
  : frame.

Lemma create_table_catalog_grows `{Engine} (name : string)
  (table_config : TableConfiguration.t) (record : Row) :
  keeps catalog_grows (create_table name table_config record).
Proof. unfold create_table. frame. Qed.

Lemma call_catalog_grows `{Engine} (c : Call) (st : State) :
  catalog_grows st (call c st).
Proof.
  destruct c as [| |table_name|table_config record_dict]; simpl.
  - apply same_catalog_catalog_grows, start_session_same_catalog.
  - apply same_catalog_catalog_grows.
    now rewrite (close_session_same_db st).
  - apply same_catalog_catalog_grows. now rewrite (read_same_db table_name st).
  - unfold write_record, bind, _open_table_for_write.
    pose proof (_open_table_keeps catalog_grows
                  (TableConfiguration.name table_config)
                  (create_table (TableConfiguration.name table_config)
                     table_config record_dict)
                  (fun _ _ _ Hgrows => Hgrows)
                  (fun st0 _ _ Hn => Hn)
                  (create_table_catalog_grows _ _ _) st) as Hopen.
    destruct (_open_table (TableConfiguration.name table_config)
                (create_table (TableConfiguration.name table_config)
                   table_config record_dict) st)
      as [st1 [table|e]]; simpl in *; [|exact Hopen].
    unfold get_state. etransitivity; [exact Hopen|].
    apply same_catalog_catalog_grows, _Table_write_record_same_catalog.
Qed.

(** No sequence of calls on the manager, failing or not, drops a table of
    the database or changes its columns: tables are only added. *)
Theorem calls_never_alter_tables `{Engine} (cs : list Call) (st : State)
  (name : string) (columns : list Column) :
  catalog (db st) !! name = Some columns ->
  catalog (db (calls cs st)) !! name = Some columns.
Proof.
  revert st. induction cs as [|c cs IH]; intros st Hn; simpl; [exact Hn|].
  apply IH. exact (call_catalog_grows c st _ _ Hn).
Qed.

Lemma calls_never_alter_tables_witness :
  catalog
    (db (@calls accepting_engine
           [CallWrite pupils_config jack3; CallClose; CallRead "students";
            CallStart; CallWrite (students_config false) [("id", PyNone)]]
           written_state))
    !! "students" =
    Some [mkColumn "id" Float true; mkColumn "name" (String_ None) false;
          mkColumn "age" Float false].
Proof.
  apply (@calls_never_alter_tables accepting_engine).
  vm_compute. reflexivity.
Defined.

(** On a manager used from its creation through calls whose tables, when
    created, are defined from the sample, every cached name is the name of
    a table of the database, whatever the calls and whichever of them
    failed. *)
Theorem manager_cache_names_tables `{Engine}
  (source : SourceConfiguration.t) (d : Database) (cs : list Call)
  (name : string) :
  Forall defines_from_sample cs ->
  is_Some (_name_to_table
             (self (calls cs (mkState (__init__ source) d []))) !! name) ->
  is_Some (catalog (db (calls cs (mkState (__init__ source) d []))) !! name).
Proof.
  intros Hcs. revert name.
  change (cache_in_catalog (calls cs (mkState (__init__ source) d []))).
  apply calls_cache_in_catalog; [exact Hcs|].
  intros n [table Hn]. simpl in Hn. rewrite lookup_empty in Hn.
  discriminate Hn.
Qed.

Lemma manager_cache_names_tables_witness :
  is_Some
    (catalog
       (db (@calls accepting_engine
              [CallStart; CallWrite (students_config true) jack3; CallClose;
               CallStart; CallRead "students"]
              (mkState (__init__ sqlite_source) empty_database [])))
       !! "students").
Proof.
  apply (@manager_cache_names_tables accepting_engine sqlite_source
           empty_database
           [CallStart; CallWrite (students_config true) jack3; CallClose;
            CallStart; CallRead "students"]
           "students").
  - repeat constructor.
  - vm_compute. eauto.
Defined.

(** ** The first write to a table *)

(** On a started session, the first write to a table that the database
    lacks, which the descriptor allows creating from the sample and the
    engine accepts, looks the table up, creates it, caches its handle, and
    then executes and commits the statement: when these go through, the
    table is in the database with the columns made from the sample and the
    rows are those the statement produced. *)
Theorem write_record_creates_then_commits `{Engine}
  (table_config : TableConfiguration.t) (record : Row) (st : State)
  (s : Session) (columns : list Column) (stmt : Stmt) (rows : Rows) :
  let name := TableConfiguration.name table_config in
  let handle :=
    _Table.__init__ (mkTableClass (Table name columns)) name in
  _session (self st) = Some s ->
  catalog (db st) !! name = None ->
  _name_to_table (self st) !! name = None ->
  TableConfiguration.create_table_if_missing table_config = true ->
  TableConfiguration.define_table_f table_config = None ->
  _columns_from_sample_record record
    (TableConfiguration.primary_key_column_names table_config)
    (drivername (SourceConfiguration.url (_source (self st)))) = Ok columns ->
  ddl_ok (Table name columns) = true ->
  _get_create_insert_f (_source (self st)) table_config (Table name columns)
    record = Ok stmt ->
  run_stmt stmt (view s (db st)) = Ok rows ->
  commit_ok rows = true ->
  write_record table_config record st =
    (mkState
       (mkSqlAlchemyDB (_source (self st)) (Some (mkSession None (closed s)))
          (<[name := handle]> (_name_to_table (self st))))
       (mkDatabase (db_exists (db st))
          (<[name := columns]> (catalog (db st))) rows)
       (trace st ++
          [EvHasTable name; EvHasTable name; EvCreateTable (Table name columns);
           EvExecute stmt; EvCommit]),
     Ok tt).
Proof.
  intros name handle Hs Hcat Hcache Hflag Hdef Hcols Hddl Hstmt Hrun Hcommit.
  unfold write_record, bind.
  rewrite (_open_table_for_write_creates table_config record st s columns
             Hs Hcat Hcache Hflag Hdef Hcols Hddl).
  unfold get_state. fold name. fold handle.
  rewrite (_Table_write_record_Ok handle _ record _ s stmt rows);
    try assumption; try reflexivity.
  cbn. now rewrite <- !app_assoc.
Qed.

Lemma write_record_creates_then_commits_witness :
  @write_record accepting_engine (students_config true) jack3 started_state =
    (mkState
       (mkSqlAlchemyDB sqlite_source (Some (mkSession None false))
          (<["students" := students_table]> ∅))
       (mkDatabase true
          (<["students" := t_columns (_Table._sqlalchemy_table students_table)]>
             ∅)
          (<["students" := [jack3]]> ∅))
       ([] ++
          [EvHasTable "students"; EvHasTable "students";
           EvCreateTable (_Table._sqlalchemy_table students_table);
           EvExecute
             (InsertValues (_Table._sqlalchemy_table students_table) jack3);
           EvCommit]),
     Ok tt).
Proof.
  apply (@write_record_creates_then_commits accepting_engine
           (students_config true) jack3 started_state (mkSession None false)
           (t_columns (_Table._sqlalchemy_table students_table))
           (InsertValues (_Table._sqlalchemy_table students_table) jack3)
           (<["students" := [jack3]]> ∅));
    reflexivity.
Defined.
